(** * Dooray MCP server: transport client and tool dispatcher

    A shallow embedding of the two core pieces of the server and of some of
    the code around them:
    - the authenticated HTTP client ([DoorayClient], api/client.ts) with its
      envelope unwrapping and its two-step (HTTP 307) upload and download;
    - the tool dispatcher (the [CallToolRequestSchema] handler of index.ts)
      together with the error classes and [formatError] (utils/errors.ts),
      the handler of [get-my-member-info] and the curl based
      [upload-attachment] handler;
    - the endpoints of api/drive.ts and some of api/projects.ts, the
      handlers of [rename-drive-file] and [get-task-comment-list], the
      member transform and the levels of the logger.

    JavaScript values are untyped, so the embedding works over one type of
    values [JsValue]; TypeScript interfaces (the response envelope, the tool
    result) are smart constructors into it.  Effects (HTTP requests, shell
    commands, handler invocations) are threaded through a state and
    exception monad whose state carries the trace of what was issued.
    Calls of the logger write to standard error only and are left out.
    What the platform and the libraries do (axios, zod, curl, V8's error
    messages) is modelled as far as the program relies on it. *)

From stdpp Require Import gmap strings list pretty.
From Stdlib Require Import ZArith String Ascii.
From Stdlib.Strings Require Import Byte.

Set Warnings "-register-all".

Open Scope string_scope.
Open Scope Z_scope.

(** ** JavaScript values *)

Module Js.

(** The classes whose instances the program inspects with [instanceof], and
    the plain objects. *)
Inductive JsClass :=
| ClsObject
| ClsFormData
| ClsError
| ClsTypeError
| ClsSyntaxError
| ClsAggregateError
| ClsAxiosError
| ClsZodError
| ClsDoorayAPIError
| ClsAuthenticationError
| ClsValidationError.

(** Numbers are restricted to the integers and NaN, which is all the program
    computes with (status codes, lengths, counts).  [JNum n] stands for the
    double that equals [n]: every integer up to 2^53 in absolute value is
    one, and the model is exact in that range only (beyond it the source
    rounds, and prints the rounded number).  The fields of an object are
    kept in insertion order, as [JSON.stringify] prints them. *)
Inductive JsValue :=
| JUndefined
| JNull
| JBool (b : bool)
| JNum (n : Z)
| JNaN
| JStr (s : string)
| JBuffer (bytes : list byte)
| JArr (items : list JsValue)
| JObj (cls : JsClass) (fields : list (string * JsValue)).

(** The result of evaluating an expression or a call: a value, or a thrown
    value. *)
Inductive Completion (A : Type) :=
| Normal (a : A)
| Throw (e : JsValue).
Arguments Normal {A} a.
Arguments Throw {A} e.

Definition dquote : string := String (ascii_of_nat 34) EmptyString.
Definition newline : string := String (ascii_of_nat 10) EmptyString.
Definition backslash : string := String (ascii_of_nat 92) EmptyString.

(** [x instanceof Error] *)
Definition instanceof_Error (v : JsValue) : bool :=
  match v with
  | JObj ClsObject _ | JObj ClsFormData _ => false
  | JObj _ _ => true
  | _ => false
  end.

(** [x instanceof DoorayAPIError]; [AuthenticationError] extends it. *)
Definition instanceof_DoorayAPIError (v : JsValue) : bool :=
  match v with
  | JObj ClsDoorayAPIError _ | JObj ClsAuthenticationError _ => true
  | _ => false
  end.

Definition instanceof_AuthenticationError (v : JsValue) : bool :=
  match v with
  | JObj ClsAuthenticationError _ => true
  | _ => false
  end.

Definition instanceof_ValidationError (v : JsValue) : bool :=
  match v with
  | JObj ClsValidationError _ => true
  | _ => false
  end.

(** Truthiness, as [if (x)], [!x], [x || y] and [x && y] test it. *)
Definition truthy (v : JsValue) : bool :=
  match v with
  | JUndefined | JNull | JNaN => false
  | JBool b => b
  | JNum n => negb (n =? 0)
  | JStr s => negb (String.eqb s EmptyString)
  | JBuffer _ | JArr _ | JObj _ _ => true
  end.

(** [x || y] *)
Definition js_or (x y : JsValue) : JsValue := if truthy x then x else y.

(** [typeof x === 'object'] *)
Definition typeof_object (v : JsValue) : bool :=
  match v with
  | JNull | JBuffer _ | JArr _ | JObj _ _ => true
  | _ => false
  end.

Fixpoint assoc (k : string) (fields : list (string * JsValue)) : option JsValue :=
  match fields with
  | [] => None
  | (k', v) :: rest => if String.eqb k k' then Some v else assoc k rest
  end.

(** ['k' in x] for a value that passed the [typeof x === 'object'] test. *)
Definition has_property (k : string) (v : JsValue) : bool :=
  match v with
  | JObj _ fields =>
      match assoc k fields with
      | Some _ => true
      | None => false
      end
  | _ => false
  end.

Definition type_error (message : string) : JsValue :=
  JObj ClsTypeError [("message", JStr message); ("name", JStr "TypeError")].

(** V8's message for a property read on [undefined] or [null]. *)
Definition cannot_read (what : string) (k : string) : JsValue :=
  type_error ("Cannot read properties of " ++ what ++ " (reading '" ++ k ++ "')").

(** [x.k]: reading a property of [undefined] or [null] throws a TypeError,
    an absent property reads as [undefined]. *)
Definition get (v : JsValue) (k : string) : Completion JsValue :=
  match v with
  | JUndefined => Throw (cannot_read "undefined" k)
  | JNull => Throw (cannot_read "null" k)
  | JObj _ fields => Normal (default JUndefined (assoc k fields))
  | JArr items =>
      Normal (if String.eqb k "length" then JNum (Z.of_nat (List.length items)) else JUndefined)
  | JStr s =>
      Normal (if String.eqb k "length" then JNum (Z.of_nat (String.length s)) else JUndefined)
  | _ => Normal JUndefined
  end.

(** [x?.k] *)
Definition get_opt (v : JsValue) (k : string) : JsValue :=
  match get v k with
  | Normal r => r
  | Throw _ => JUndefined
  end.

(** The string a primitive converts to. *)
Definition prim_to_string (v : JsValue) : option string :=
  match v with
  | JUndefined => Some "undefined"
  | JNull => Some "null"
  | JBool true => Some "true"
  | JBool false => Some "false"
  | JNum n => Some (pretty n)
  | JNaN => Some "NaN"
  | JStr s => Some s
  | _ => None
  end.

(** [Error.prototype.toString]: the name, a colon and the message; the name
    alone when there is no message. *)
Definition error_to_string (fields : list (string * JsValue)) : string :=
  let name :=
    match assoc "name" fields with
    | Some v => default "Error" (prim_to_string v)
    | None => "Error"
    end in
  let message :=
    match assoc "message" fields with
    | Some v => default EmptyString (prim_to_string v)
    | None => EmptyString
    end in
  if String.eqb message EmptyString then name
  else if String.eqb name EmptyString then message
  else name ++ ": " ++ message.

(** [String(x)] and the conversion a template literal applies; an array
    converts to its elements joined by commas. *)
Fixpoint to_string (v : JsValue) : string :=
  match v with
  | JBuffer _ => "[object ArrayBuffer]"
  | JArr items =>
      (fix join_items (xs : list JsValue) : string :=
         match xs with
         | [] => EmptyString
         | x :: rest =>
             let sx := match x with
                       | JUndefined | JNull => EmptyString
                       | _ => to_string x
                       end in
             match rest with
             | [] => sx
             | _ => sx ++ "," ++ join_items rest
             end
         end) items
  | JObj ClsObject _ => "[object Object]"
  | JObj ClsFormData _ => "[object FormData]"
  | JObj _ fields => error_to_string fields
  | _ => default EmptyString (prim_to_string v)
  end.

(** [Array.prototype.join]: [undefined] and [null] elements give the empty
    string. *)
Fixpoint array_join (sep : string) (xs : list JsValue) : string :=
  match xs with
  | [] => EmptyString
  | x :: rest =>
      let sx := match x with
                | JUndefined | JNull => EmptyString
                | _ => to_string x
                end in
      match rest with
      | [] => sx
      | _ => sx ++ sep ++ array_join sep rest
      end
  end.

(** [xs.join(sep)] on strings. *)
Fixpoint join (sep : string) (xs : list string) : string :=
  match xs with
  | [] => EmptyString
  | x :: rest =>
      match rest with
      | [] => x
      | _ => x ++ sep ++ join sep rest
      end
  end.

End Js.

(** ** [JSON.stringify(value, null, 2)] *)

Module Json.
Import Js.

Definition hex_digit (n : Z) : string :=
  String.substring (Z.to_nat n) 1 "0123456789abcdef".

(** The escape of one character inside a JSON string. *)
Definition escape_char (c : ascii) : string :=
  let n := Z.of_nat (nat_of_ascii c) in
  if n =? 34 then backslash ++ dquote
  else if n =? 92 then backslash ++ backslash
  else if n =? 8 then backslash ++ "b"
  else if n =? 12 then backslash ++ "f"
  else if n =? 10 then backslash ++ "n"
  else if n =? 13 then backslash ++ "r"
  else if n =? 9 then backslash ++ "t"
  else if n <? 32 then backslash ++ "u00" ++ hex_digit (n / 16) ++ hex_digit (n mod 16)
  else String c EmptyString.

Fixpoint escape (s : string) : string :=
  match s with
  | EmptyString => EmptyString
  | String c rest => escape_char c ++ escape rest
  end.

Definition quote (s : string) : string := dquote ++ escape s ++ dquote.

(** The own properties [JSON.stringify] does not see: an error's [message]
    and [stack] are not enumerable. *)
Definition enumerable (cls : JsClass) (k : string) : bool :=
  match cls with
  | ClsObject | ClsFormData => true
  | _ => negb (String.eqb k "message" || String.eqb k "stack")
  end.

(** Serialisation at the current indentation [indent] with the gap [gap];
    [None] is the [undefined] that [JSON.stringify] returns for
    [undefined].  An [undefined] array element prints as [null], an
    [undefined] property is left out. *)
Fixpoint stringify_at (gap indent : string) (v : JsValue) : option string :=
  let inner := indent ++ gap in
  let sep := "," ++ newline ++ inner in
  match v with
  | JUndefined => None
  | JNull | JNaN => Some "null"
  | JBool true => Some "true"
  | JBool false => Some "false"
  | JNum n => Some (pretty n)
  | JStr s => Some (quote s)
  | JBuffer _ => Some "{}"
  | JArr items =>
      let parts :=
        (fix each (xs : list JsValue) : list string :=
           match xs with
           | [] => []
           | x :: rest => default "null" (stringify_at gap inner x) :: each rest
           end) items in
      match parts with
      | [] => Some "[]"
      | _ => Some ("[" ++ newline ++ inner ++ join sep parts ++ newline ++ indent ++ "]")
      end
  | JObj cls fields =>
      let parts :=
        (fix each (fs : list (string * JsValue)) : list string :=
           match fs with
           | [] => []
           | (k, x) :: rest =>
               match stringify_at gap inner x with
               | Some s =>
                   if enumerable cls k then (quote k ++ ": " ++ s) :: each rest
                   else each rest
               | None => each rest
               end
           end) fields in
      match parts with
      | [] => Some "{}"
      | _ => Some ("{" ++ newline ++ inner ++ join sep parts ++ newline ++ indent ++ "}")
      end
  end.

(** [JSON.stringify(v, null, 2)], as a JavaScript value. *)
Definition stringify2 (v : JsValue) : JsValue :=
  match stringify_at "  " EmptyString v with
  | Some s => JStr s
  | None => JUndefined
  end.

End Json.

(** ** String helpers of the platform *)

Module Str.
Import Js.

Definition is_space (c : ascii) : bool :=
  let n := Z.of_nat (nat_of_ascii c) in
  (n =? 32) || ((9 <=? n) && (n <=? 13)).

Fixpoint trim_start (s : string) : string :=
  match s with
  | String c rest => if is_space c then trim_start rest else s
  | EmptyString => EmptyString
  end.

(** The string without its trailing white space. *)
Fixpoint trim_end (s : string) : string :=
  match s with
  | EmptyString => EmptyString
  | String c rest =>
      match trim_end rest with
      | EmptyString => if is_space c then EmptyString else String c EmptyString
      | rest' => String c rest'
      end
  end.

(** [s.trim()] *)
Definition trim (s : string) : string := trim_end (trim_start s).

(** [s.split(c)] for a one character separator: never empty. *)
Fixpoint split (sep : ascii) (s : string) : list string :=
  match s with
  | EmptyString => [EmptyString]
  | String c rest =>
      if Ascii.eqb c sep then EmptyString :: split sep rest
      else match split sep rest with
           | [] => [String c EmptyString]
           | w :: ws => String c w :: ws
           end
  end.

(** [xs[i]] on an array of strings: [undefined] out of range. *)
Definition index (xs : list string) (i : Z) : JsValue :=
  if i <? 0 then JUndefined
  else match nth_error xs (Z.to_nat i) with
       | Some s => JStr s
       | None => JUndefined
       end.

Definition digit_value (c : ascii) : option Z :=
  let n := Z.of_nat (nat_of_ascii c) in
  if (48 <=? n) && (n <=? 57) then Some (n - 48) else None.

(** The value of the longest prefix of decimal digits, if there is one. *)
Fixpoint digits (acc : option Z) (s : string) : option Z :=
  match s with
  | EmptyString => acc
  | String c rest =>
      match digit_value c with
      | Some d => digits (Some (10 * default 0 acc + d)) rest
      | None => acc
      end
  end.

(** [parseInt(s, 10)]: leading white space, a sign, then digits; NaN when
    no digit follows.  The value is the exact integer the digits spell; the
    source returns the nearest double, which is the same number up to 2^53
    and a rounded one beyond. *)
Definition parseInt (s : string) : JsValue :=
  match trim_start s with
  | String "-" rest =>
      match digits None rest with Some n => JNum (- n) | None => JNaN end
  | String "+" rest =>
      match digits None rest with Some n => JNum n | None => JNaN end
  | t => match digits None t with Some n => JNum n | None => JNaN end
  end.

End Str.

(** ** Error classes and [formatError] (utils/errors.ts) *)

Module Errors.
Import Js.

(** [new Error(message)] *)
Definition new_Error (message : string) : JsValue :=
  JObj ClsError [("message", JStr message); ("name", JStr "Error")].

(** [new DoorayAPIError(message, statusCode, responseData)]: the two
    optional parameters are [undefined] when not given. *)
Definition new_DoorayAPIError (message : string) (statusCode responseData : JsValue) : JsValue :=
  JObj ClsDoorayAPIError
    [("message", JStr message);
     ("statusCode", statusCode);
     ("responseData", responseData);
     ("name", JStr "DoorayAPIError")].

(** [new AuthenticationError(message)] calls [super(message, 401)] and
    renames itself. *)
Definition new_AuthenticationError (message : string) : JsValue :=
  JObj ClsAuthenticationError
    [("message", JStr message);
     ("statusCode", JNum 401);
     ("responseData", JUndefined);
     ("name", JStr "AuthenticationError")].

Definition new_ValidationError (message : string) : JsValue :=
  JObj ClsValidationError [("message", JStr message); ("name", JStr "ValidationError")].

Definition formatError (error : JsValue) : string :=
  if instanceof_DoorayAPIError error then
    let details :=
      if truthy (get_opt error "statusCode")
      then " (Status: " ++ to_string (get_opt error "statusCode") ++ ")"
      else EmptyString in
    "Dooray API Error: " ++ to_string (get_opt error "message") ++ details
  else if instanceof_ValidationError error then
    "Validation Error: " ++ to_string (get_opt error "message")
  else if instanceof_Error error then
    to_string (get_opt error "message")
  else
    to_string error.

End Errors.

(** ** Effects: the outside world, the trace and the monad *)

Module Fx.
Import Js.

Inductive Method := GET | POST | PUT | PATCH | DELETE.

Inductive ResponseType := AsJson | AsArrayBuffer.

(** One call on an axios instance: the instance settings that shape the
    request and the arguments of the call.  [maxRedirects] is [None] for the
    library default, with which the library follows redirects by itself
    inside the call; with [Some 0] the call is one request on the wire. *)
Record Request := {
  method : Method;
  baseURL : option string;
  url : string;
  data : JsValue;
  params : JsValue;
  headers : gmap string string;
  timeout : Z;
  maxRedirects : option Z;
  responseType : ResponseType }.

Record Response := {
  status : Z;
  response_headers : gmap string string;
  response_data : JsValue }.

Inductive NetReply :=
| Replied (r : Response)
| Unreachable (message : string).

(** A curl invocation of the upload handler: [probe] stands for
    [-w '\n%{http_code}\n%{redirect_url}' -o /dev/null].  The handler
    writes the command as one string, with the URL and the header between
    single quotes and the file between double quotes; the record is what
    the shell runs as long as none of these parts holds a quote or a
    backslash. *)
Record CurlCommand := {
  curl_method : Method;
  curl_url : string;
  curl_authorization : string;
  curl_form_file : string;
  probe : bool }.

Inductive ExecReply :=
| Stdout (out : string)
| ExecFailed (message : string).

Inductive Event :=
| EvHttp (req : Request)
| EvExec (cmd : CurlCommand)
| EvHandler (name : string) (args : JsValue).

(** What the program cannot decide by itself.  The network and the shell
    answer as a function of what was issued before, so a server may answer
    the same request differently the second time. *)
Record World := {
  net : list Event -> Request -> NetReply;
  shell : list Event -> CurlCommand -> ExecReply;
  existsSync : string -> bool;
  env : string -> option string;
  JSON_parse : string -> Completion JsValue;
  basename : string -> string }.

Record DoorayConfig := {
  apiToken : string;
  baseUrl : option string }.

(** The optional headers a caller may add (types/config.ts). *)
Record DoorayHeaders := {
  X_Om_Id : option string;
  X_Tnt_Id : option string;
  X_Org_Id : option string }.

Definition no_headers : DoorayHeaders :=
  {| X_Om_Id := None; X_Tnt_Id := None; X_Org_Id := None |}.

Definition set_header (k : string) (o : option string) (m : gmap string string)
    : gmap string string :=
  match o with
  | Some v => <[k := v]> m
  | None => m
  end.

(** The headers object as axios merges it. *)
Definition headers_map (h : DoorayHeaders) : gmap string string :=
  set_header "X-Om-Id" (X_Om_Id h)
    (set_header "X-Tnt-Id" (X_Tnt_Id h)
       (set_header "X-Org-Id" (X_Org_Id h) ∅)).

(** The mutable state: the trace of effects and the client singleton
    ([clientInstance] of api/client.ts). *)
Record State := {
  trace : list Event;
  clientInstance : option DoorayConfig }.

Definition record (ev : Event) (st : State) : State :=
  {| trace := (trace st ++ [ev])%list; clientInstance := clientInstance st |}.

Definition M (A : Type) : Type := World -> State -> Completion A * State.

Definition ret {A} (a : A) : M A := fun _ st => (Normal a, st).

Definition throw {A} (e : JsValue) : M A := fun _ st => (Throw e, st).

Definition bind {A B} (m : M A) (k : A -> M B) : M B :=
  fun w st =>
    match m w st with
    | (Normal a, st') => k a w st'
    | (Throw e, st') => (Throw e, st')
    end.

(** [try { m } catch (error) { h error }] *)
Definition try_catch {A} (m : M A) (h : JsValue -> M A) : M A :=
  fun w st =>
    match m w st with
    | (Normal a, st') => (Normal a, st')
    | (Throw e, st') => h e w st'
    end.

Definition lift {A} (c : Completion A) : M A := fun _ st => (c, st).

End Fx.

Notation "'let*' x := m 'in' k" := (Fx.bind m (fun x => k))
  (at level 10, x name, m at level 100, k at level 200).

(** ** The HTTP library (axios), as far as the client relies on it *)

Module Axios.
Import Js Fx.

(** The default [validateStatus]: 2xx. *)
Definition validate_default (s : Z) : bool := (200 <=? s) && (s <? 300).

Definition headers_value (h : gmap string string) : JsValue :=
  JObj ClsObject ((fun kv => (fst kv, JStr (snd kv))) <$> map_to_list h).

(** The response object the library hands over and attaches to its errors. *)
Definition response_value (r : Response) : JsValue :=
  JObj ClsObject
    [("status", JNum (status r));
     ("data", response_data r);
     ("headers", headers_value (response_headers r))].

(** The error the library rejects with: [response] is [undefined] when no
    response arrived. *)
Definition new_AxiosError (message : string) (response : JsValue) : JsValue :=
  JObj ClsAxiosError
    [("message", JStr message); ("name", JStr "AxiosError"); ("response", response)].

Definition status_error (r : Response) : JsValue :=
  new_AxiosError ("Request failed with status code " ++ pretty (status r)) (response_value r).

(** One call of [instance.get/post/...] on an instance without
    interceptors: the call is traced, and the promise resolves with the
    response when [validateStatus] accepts its status and rejects otherwise.
    The trace counts calls on the library, not requests on the wire:
    redirects the library follows by itself (when [maxRedirects] is not 0)
    happen inside the call and are part of the answer of [net]. *)
Definition request (validateStatus : Z -> bool) (req : Request) : M Response :=
  fun w st =>
    let st' := record (EvHttp req) st in
    match net w (trace st) req with
    | Unreachable message => (Throw (new_AxiosError message JUndefined), st')
    | Replied r =>
        if validateStatus (status r) then (Normal r, st')
        else (Throw (status_error r), st')
    end.

(** What a request settles to, applied to the part of the response the
    caller returns. *)
Definition settled (reply : NetReply) (result : Response -> JsValue) : Completion JsValue :=
  match reply with
  | Replied r2 =>
      if validate_default (status r2) then Normal (result r2)
      else Throw (status_error r2)
  | Unreachable message => Throw (new_AxiosError message JUndefined)
  end.

(** [response.headers[name]] *)
Definition header (r : Response) (name : string) : JsValue :=
  match response_headers r !! name with
  | Some v => JStr v
  | None => JUndefined
  end.

End Axios.

(** ** [DoorayClient] (api/client.ts) *)

Module Client.
Import Js Fx Errors.

Definition DEFAULT_BASE_URL : string := "https://api.dooray.com".

(** [config.baseUrl || DEFAULT_BASE_URL] *)
Definition base_url (c : DoorayConfig) : string :=
  match baseUrl c with
  | Some b => if String.eqb b EmptyString then DEFAULT_BASE_URL else b
  | None => DEFAULT_BASE_URL
  end.

Definition authHeader (c : DoorayConfig) : string := "dooray-api " ++ apiToken c.

(** The constructor refuses an empty token. *)
Definition new_DoorayClient (c : DoorayConfig) : Completion DoorayConfig :=
  if String.eqb (apiToken c) EmptyString
  then Throw (new_AuthenticationError "DOORAY_API_TOKEN is required as environment variable")
  else Normal c.

(** The response interceptor's error branch. *)
Definition response_error_interceptor {A} (error : JsValue) : M A :=
  let response := get_opt error "response" in
  if truthy response then
    let status := get_opt response "status" in
    let data := get_opt response "data" in
    match status with
    | JNum 401 => throw (new_AuthenticationError "Invalid or expired API token")
    | _ =>
        let message :=
          js_or (get_opt (get_opt data "header") "resultMessage")
            (js_or (get_opt data "message") (JStr "API request failed")) in
        throw (new_DoorayAPIError (to_string message) status data)
    end
  else
    throw (new_DoorayAPIError ("Network error: " ++ to_string (get_opt error "message"))
             JUndefined JUndefined).

(** A call on [this.client]: the instance of the constructor (base URL,
    30 s timeout, JSON content type) with its two interceptors.  The request
    interceptor sets the [Authorization] header last. *)
Definition instance_config (c : DoorayConfig) (m : Method) (path : string)
    (body query : JsValue) (hs : DoorayHeaders) : Request :=
  {| method := m;
     baseURL := Some (base_url c);
     url := path;
     data := body;
     params := query;
     headers := <["Authorization" := authHeader c]>
                  (headers_map hs ∪ {["Content-Type" := "application/json"]});
     timeout := 30000;
     maxRedirects := None;
     responseType := AsJson |}.

Definition instance_request (c : DoorayConfig) (m : Method) (path : string)
    (body query : JsValue) (hs : DoorayHeaders) : M Response :=
  try_catch (Axios.request Axios.validate_default (instance_config c m path body query hs))
    response_error_interceptor.

(** V8's message when a destructuring pattern meets [undefined] or [null]. *)
Definition cannot_destructure (k what : string) : JsValue :=
  type_error ("Cannot destructure property '" ++ k ++ "' of 'response.data' as it is "
              ++ what ++ ".").

(** [const { header, ... } = response.data] *)
Definition destructure_data (d : JsValue) : Completion JsValue :=
  match d with
  | JUndefined => Throw (cannot_destructure "header" "undefined")
  | JNull => Throw (cannot_destructure "header" "null")
  | _ => Normal d
  end.

Definition extractResult (response : Response) : Completion JsValue :=
  match destructure_data (response_data response) with
  | Throw e => Throw e
  | Normal d =>
      let header := get_opt d "header" in
      let result := get_opt d "result" in
      match get header "isSuccessful" with
      | Throw e => Throw e
      | Normal ok =>
          if negb (truthy ok) then
            Throw (new_DoorayAPIError
                     (to_string (js_or (get_opt header "resultMessage")
                                   (JStr "API request failed")))
                     (JNum (status response))
                     (response_data response))
          else Normal result
      end
  end.

Definition extractPaginatedResult (response : Response) : Completion JsValue :=
  match destructure_data (response_data response) with
  | Throw e => Throw e
  | Normal d =>
      let header := get_opt d "header" in
      let result := get_opt d "result" in
      let totalCount := get_opt d "totalCount" in
      match get header "isSuccessful" with
      | Throw e => Throw e
      | Normal ok =>
          if negb (truthy ok) then
            Throw (new_DoorayAPIError
                     (to_string (js_or (get_opt header "resultMessage")
                                   (JStr "API request failed")))
                     (JNum (status response))
                     (response_data response))
          else Normal (JObj ClsObject [("totalCount", totalCount); ("data", result)])
      end
  end.

Definition get (c : DoorayConfig) (path : string) (query : JsValue)
    (hs : DoorayHeaders) : M JsValue :=
  let* response := instance_request c GET path JUndefined query hs in
  lift (extractResult response).

Definition post (c : DoorayConfig) (path : string) (body : JsValue)
    (hs : DoorayHeaders) : M JsValue :=
  let* response := instance_request c POST path body JUndefined hs in
  lift (extractResult response).

Definition put (c : DoorayConfig) (path : string) (body : JsValue)
    (hs : DoorayHeaders) : M JsValue :=
  let* response := instance_request c PUT path body JUndefined hs in
  lift (extractResult response).

Definition patch (c : DoorayConfig) (path : string) (body : JsValue)
    (hs : DoorayHeaders) : M JsValue :=
  let* response := instance_request c PATCH path body JUndefined hs in
  lift (extractResult response).

Definition delete (c : DoorayConfig) (path : string)
    (hs : DoorayHeaders) : M JsValue :=
  let* response := instance_request c DELETE path JUndefined JUndefined hs in
  lift (extractResult response).

Definition getPaginated (c : DoorayConfig) (path : string) (query : JsValue) : M JsValue :=
  let* response := instance_request c GET path JUndefined query no_headers in
  lift (extractPaginatedResult response).

(** The [validateStatus] of the first leg of a transfer: 307 or 2xx. *)
Definition validate_transfer (s : Z) : bool :=
  (s =? 307) || ((200 <=? s) && (s <? 300)).

(** [url.startsWith('http') ? url : `${baseUrl}${url}`] *)
Definition full_url (c : DoorayConfig) (path : string) : string :=
  if String.prefix "http" path then path else base_url c ++ path.

(** [{ Authorization: authHeader, ...headers }] *)
Definition transfer_headers (c : DoorayConfig) (hs : DoorayHeaders) : gmap string string :=
  headers_map hs ∪ {["Authorization" := authHeader c]}.

Definition no_location : JsValue :=
  new_DoorayAPIError "307 redirect received but no Location header found"
    JUndefined JUndefined.

(** The first request of an upload, to the API with redirects disabled. *)
Definition upload_initial (c : DoorayConfig) (path : string) (formData : JsValue)
    (hs : DoorayHeaders) : Request :=
  {| method := POST;
     baseURL := None;
     url := full_url c path;
     data := formData;
     params := JUndefined;
     headers := transfer_headers c hs;
     timeout := 60000;
     maxRedirects := Some 0;
     responseType := AsJson |}.

(** The second request of an upload, to the location of the redirect. *)
Definition upload_followup (c : DoorayConfig) (locationUrl : string) (formData : JsValue)
    (hs : DoorayHeaders) : Request :=
  {| method := POST;
     baseURL := None;
     url := locationUrl;
     data := formData;
     params := JUndefined;
     headers := transfer_headers c hs;
     timeout := 60000;
     maxRedirects := None;
     responseType := AsJson |}.

Definition uploadFile (c : DoorayConfig) (path : string) (formData : JsValue)
    (hs : DoorayHeaders) : M JsValue :=
  let* initialResponse :=
    Axios.request validate_transfer (upload_initial c path formData hs) in
  if negb (status initialResponse =? 307) then
    ret (response_data initialResponse)
  else
    let locationUrl := Axios.header initialResponse "location" in
    if negb (truthy locationUrl) then throw no_location
    else
      let* response :=
        Axios.request Axios.validate_default
          (upload_followup c (to_string locationUrl) formData hs) in
      ret (response_data response).

Definition download_initial (c : DoorayConfig) (path : string) (query : JsValue) : Request :=
  {| method := GET;
     baseURL := None;
     url := full_url c path;
     data := JUndefined;
     params := query;
     headers := {["Authorization" := authHeader c]};
     timeout := 60000;
     maxRedirects := Some 0;
     responseType := AsArrayBuffer |}.

Definition download_followup (c : DoorayConfig) (locationUrl : string) (query : JsValue) : Request :=
  {| method := GET;
     baseURL := None;
     url := locationUrl;
     data := JUndefined;
     params := query;
     headers := {["Authorization" := authHeader c]};
     timeout := 60000;
     maxRedirects := None;
     responseType := AsArrayBuffer |}.

(** The object a download returns, read off the authoritative response. *)
Definition download_result (r : Response) : JsValue :=
  JObj ClsObject
    [("data", response_data r);
     ("contentType",
       js_or (Axios.header r "content-type") (JStr "application/octet-stream"));
     ("contentDisposition", Axios.header r "content-disposition");
     ("contentLength",
       Str.parseInt (to_string (js_or (Axios.header r "content-length") (JStr "0"))))].

Definition downloadFile (c : DoorayConfig) (path : string) (query : JsValue) : M JsValue :=
  let* initialResponse :=
    Axios.request validate_transfer (download_initial c path query) in
  if negb (status initialResponse =? 307) then
    ret (download_result initialResponse)
  else
    let locationUrl := Axios.header initialResponse "location" in
    if negb (truthy locationUrl) then throw no_location
    else
      let* response :=
        Axios.request Axios.validate_default
          (download_followup c (to_string locationUrl) query) in
      ret (download_result response).

(** [initializeClient] and [getClient]: the singleton. *)
Definition initializeClient (c : DoorayConfig) : M DoorayConfig :=
  fun _ st =>
    match new_DoorayClient c with
    | Normal client => (Normal client, {| trace := trace st; clientInstance := Some client |})
    | Throw e => (Throw e, st)
    end.

Definition getClient : M DoorayConfig :=
  fun _ st =>
    match clientInstance st with
    | Some client => (Normal client, st)
    | None =>
        (Throw (new_Error "Dooray client not initialized. Call initializeClient() first."), st)
    end.

End Client.

(** ** Tool results and the schema library (zod), as far as it is used *)

Module Tool.
Import Js Fx.

Definition text_content (text : JsValue) : JsValue :=
  JObj ClsObject [("type", JStr "text"); ("text", text)].

(** [{ content: [{ type: 'text', text }] }]: what a handler returns on
    success; there is no [isError] property. *)
Definition success_result (text : JsValue) : JsValue :=
  JObj ClsObject [("content", JArr [text_content text])].

(** [{ content: [{ type: 'text', text }], isError: true }] *)
Definition error_result (text : string) : JsValue :=
  JObj ClsObject [("content", JArr [text_content (JStr text)]); ("isError", JBool true)].

Definition is_text_item (v : JsValue) : bool :=
  match v with
  | JObj ClsObject item =>
      match assoc "type" item, assoc "text" item with
      | Some (JStr ty), Some (JStr _) => String.eqb ty "text"
      | _, _ => false
      end
  | _ => false
  end.

(** The shape [{ content: [{type:"text", text}], isError? }]. *)
Definition well_formed (v : JsValue) : bool :=
  match v with
  | JObj ClsObject fields =>
      match assoc "content" fields with
      | Some (JArr [item]) => is_text_item item
      | _ => false
      end
      && match assoc "isError" fields with
         | None | Some JUndefined | Some (JBool _) => true
         | _ => false
         end
  | _ => false
  end.

(** The text of a result and its error flag, for stating what a call
    returned. *)
Definition text_of (v : JsValue) : JsValue :=
  match get_opt v "content" with
  | JArr [item] => get_opt item "text"
  | _ => JUndefined
  end.

Definition isError_of (v : JsValue) : JsValue := get_opt v "isError".

(** An issue of a failed validation: the path of the offending field
    (property names and array indices) and the message. *)
Record ZodIssue := {
  path : list JsValue;
  message : string }.

Definition issue_value (i : ZodIssue) : JsValue :=
  JObj ClsObject [("path", JArr (path i)); ("message", JStr (message i))].

(** The line the dispatcher prints for an issue. *)
Definition issue_text (i : ZodIssue) : string :=
  array_join "." (path i) ++ ": " ++ message i.

(** The error [schema.parse] throws (zod 3): [errors] is an accessor for
    [issues]. *)
Definition new_ZodError (issues : list ZodIssue) : JsValue :=
  JObj ClsZodError
    [("issues", JArr (issue_value <$> issues));
     ("errors", JArr (issue_value <$> issues));
     ("name", JStr "ZodError")].

Inductive ParseResult :=
| Parsed (v : JsValue)
| Invalid (issues : list ZodIssue).

Definition Schema : Type := JsValue -> ParseResult.

(** [schema.parse(v)] *)
Definition parse (s : Schema) (v : JsValue) : Completion JsValue :=
  match s v with
  | Parsed v' => Normal v'
  | Invalid issues => Throw (new_ZodError issues)
  end.

(** The name zod gives the type of a value in its messages. *)
Definition zod_type (v : JsValue) : string :=
  match v with
  | JUndefined => "undefined"
  | JNull => "null"
  | JBool _ => "boolean"
  | JNum _ => "number"
  | JNaN => "nan"
  | JStr _ => "string"
  | JArr _ => "array"
  | _ => "object"
  end.

(** The issues of one [z.string()] property. *)
Definition string_property (v : JsValue) (k : string) : list ZodIssue :=
  match get_opt v k with
  | JStr _ => []
  | JUndefined => [{| path := [JStr k]; message := "Required" |}]
  | x => [{| path := [JStr k];
             message := "Expected string, received " ++ zod_type x |}]
  end.

(** [z.object({ k1: z.string(), ..., kn: z.string() })]: unknown keys are
    stripped. *)
Definition z_object_of_strings (keys : list string) : Schema :=
  fun v =>
    match v with
    | JObj _ _ =>
        match List.concat ((string_property v) <$> keys) with
        | [] => Parsed (JObj ClsObject ((fun k => (k, get_opt v k)) <$> keys))
        | issues => Invalid issues
        end
    | JUndefined => Invalid [{| path := []; message := "Required" |}]
    | _ => Invalid [{| path := [];
                       message := "Expected object, received " ++ zod_type v |}]
    end.

Record Tool := {
  handler : JsValue -> M JsValue;
  schema : Schema }.

End Tool.

(** ** The handlers of [get-my-member-info] and [upload-attachment] *)

Module Handlers.
Import Js Fx Errors Tool.

Definition COMMON_BASE : string := "/common/v1".

(** api/common.ts *)
Definition getMyMemberInfo : M JsValue :=
  let* client := Client.getClient in
  Client.get client (COMMON_BASE ++ "/members/me") JUndefined no_headers.

(** The request it makes. *)
Definition member_info_request (c : DoorayConfig) : Request :=
  Client.instance_config c GET "/common/v1/members/me" JUndefined JUndefined no_headers.

Definition getMyMemberInfoSchema : Schema := z_object_of_strings [].

Definition getMyMemberInfoHandler (args : JsValue) : M JsValue :=
  try_catch
    (let* result := getMyMemberInfo in
     ret (success_result (Json.stringify2 result)))
    (fun error => ret (error_result ("Error: " ++ formatError error))).

Definition uploadAttachmentSchema : Schema :=
  z_object_of_strings ["projectId"; "taskId"; "filePath"].

Definition ask : M World := fun w st => (Normal w, st).

(** [await execAsync(command)]: the standard output, or a rejection. *)
Definition execAsync (cmd : CurlCommand) : M string :=
  fun w st =>
    let st' := record (EvExec cmd) st in
    match shell w (trace st) cmd with
    | Stdout out => (Normal out, st')
    | ExecFailed message => (Throw (new_Error message), st')
    end.

(** What curl prints for [-s -o /dev/null -w '\n%{http_code}\n%{redirect_url}']:
    the body is discarded, [redirect_url] is empty unless the response
    redirects. *)
Definition curl_probe_stdout (http_code redirect_url : string) : string :=
  newline ++ http_code ++ newline ++ redirect_url.

(** [v === 'literal'] *)
Definition is_string (v : JsValue) (literal : string) : bool :=
  match v with
  | JStr s => String.eqb s literal
  | _ => false
  end.

(** The envelope check both upload branches apply to the parsed body. *)
Definition upload_response_result (response : JsValue) : Completion JsValue :=
  match get response "header" with
  | Throw e => Throw e
  | Normal header =>
      if negb (truthy (get_opt header "isSuccessful")) then
        Throw (new_Error (to_string (js_or (get_opt header "resultMessage")
                                       (JStr "Upload failed"))))
      else Normal (get_opt response "result")
  end.

Definition upload_command (target token filePath : string) (probing : bool) : CurlCommand :=
  {| curl_method := POST;
     curl_url := target;
     curl_authorization := "dooray-api " ++ token;
     curl_form_file := filePath;
     probe := probing |}.

Definition upload_api_url (w : World) (args : JsValue) : string :=
  let baseUrl :=
    match env w "DOORAY_API_BASE_URL" with
    | Some b => if String.eqb b EmptyString then "https://api.dooray.com" else b
    | None => "https://api.dooray.com"
    end in
  baseUrl ++ "/project/v1/projects/" ++ to_string (get_opt args "projectId")
    ++ "/posts/" ++ to_string (get_opt args "taskId") ++ "/files".

(** The body of the [try] block of the upload handler, for arguments as
    the schema of the tool hands them on: an object whose [filePath] is a
    string.  (On [undefined] or [null] the source throws when it reads
    [args.filePath], and for a path that is no string [fs.existsSync] says
    no.) *)
Definition upload_attempt (args : JsValue) : M JsValue :=
  let* w := ask in
  match env w "DOORAY_API_TOKEN" with
  | None => throw (new_Error "DOORAY_API_TOKEN environment variable is required")
  | Some token =>
      if String.eqb token EmptyString
      then throw (new_Error "DOORAY_API_TOKEN environment variable is required")
      else
        let filePath := to_string (get_opt args "filePath") in
        if negb (existsSync w filePath)
        then throw (new_Error ("File not found: " ++ filePath))
        else
          let fileName := basename w filePath in
          let apiUrl := upload_api_url w args in
          let* step1 := execAsync (upload_command apiUrl token filePath true) in
          let step1Lines := Str.split (ascii_of_nat 10) (Str.trim step1) in
          let n := Z.of_nat (List.length step1Lines) in
          let httpCode := Str.index step1Lines (n - 2) in
          let redirectUrl := Str.index step1Lines (n - 1) in
          let* result :=
            if is_string httpCode "307" && truthy redirectUrl then
              let* out :=
                execAsync (upload_command (to_string redirectUrl) token filePath false) in
              let* response := lift (JSON_parse w out) in
              lift (upload_response_result response)
            else if is_string httpCode "200" || is_string httpCode "201" then
              let* out := execAsync (upload_command apiUrl token filePath false) in
              let* response := lift (JSON_parse w out) in
              lift (upload_response_result response)
            else
              throw (new_Error ("Unexpected HTTP status: " ++ to_string httpCode)) in
          let* fileId := lift (get result "id") in
          ret (success_result
                 (Json.stringify2
                    (JObj ClsObject
                       [("success", JBool true);
                        ("fileId", fileId);
                        ("fileName", JStr fileName);
                        ("message",
                          JStr ("File " ++ dquote ++ fileName ++ dquote
                                ++ " successfully uploaded to task."))])))
  end.

Definition uploadAttachmentHandler (args : JsValue) : M JsValue :=
  try_catch (upload_attempt args)
    (fun error => ret (error_result ("Error: " ++ formatError error))).

End Handlers.

(** ** The dispatcher: the [CallToolRequestSchema] handler of index.ts *)

Module Dispatcher.
Import Js Fx Errors Tool.

(** The properties every object literal inherits from [Object.prototype];
    [toolRegistry[name]] finds them when the registry has no such tool. *)
Definition object_prototype_keys : list string :=
  ["constructor"; "__defineGetter__"; "__defineSetter__"; "hasOwnProperty";
   "__lookupGetter__"; "__lookupSetter__"; "isPrototypeOf";
   "propertyIsEnumerable"; "toString"; "valueOf"; "__proto__"; "toLocaleString"].

Inductive Entry :=
| Own (tool : Tool)
| Inherited.

(** [toolRegistry[name]]: [None] is [undefined]. *)
Definition registry_get (registry : gmap string Tool) (name : string) : option Entry :=
  match registry !! name with
  | Some tool => Some (Own tool)
  | None =>
      if existsb (String.eqb name) object_prototype_keys then Some Inherited else None
  end.

(** [`${e.path.join('.')}: ${e.message}`] *)
Definition issue_line (e : JsValue) : Completion string :=
  match get e "path" with
  | Throw err => Throw err
  | Normal (JArr segments) =>
      Normal (array_join "." segments ++ ": " ++ to_string (get_opt e "message"))
  | Normal JUndefined => Throw (cannot_read "undefined" "join")
  | Normal JNull => Throw (cannot_read "null" "join")
  | Normal _ => Throw (type_error "e.path.join is not a function")
  end.

Fixpoint issue_lines (es : list JsValue) : Completion (list string) :=
  match es with
  | [] => Normal []
  | e :: rest =>
      match issue_line e with
      | Throw err => Throw err
      | Normal l =>
          match issue_lines rest with
          | Throw err => Throw err
          | Normal ls => Normal (l :: ls)
          end
      end
  end.

(** [zodError.errors.map(e => ...).join(', ')] *)
Definition errorMessages (errors : JsValue) : Completion string :=
  match errors with
  | JArr es =>
      match issue_lines es with
      | Throw err => Throw err
      | Normal ls => Normal (join ", " ls)
      end
  | JUndefined => Throw (cannot_read "undefined" "map")
  | JNull => Throw (cannot_read "null" "map")
  | _ => Throw (type_error "zodError.errors.map is not a function")
  end.

(** The [catch] block of the dispatcher. *)
Definition on_error (error : JsValue) : M JsValue :=
  if truthy error && typeof_object error && has_property "errors" error then
    let* messages := lift (errorMessages (get_opt error "errors")) in
    ret (error_result ("Validation Error: " ++ messages))
  else
    ret (error_result
           ("Error: " ++ (if instanceof_Error error
                          then to_string (get_opt error "message")
                          else to_string error))).

(** [await tool.handler(validatedArgs)]; the invocation is traced. *)
Definition call_handler (name : string) (tool : Tool) (validatedArgs : JsValue) : M JsValue :=
  fun w st => handler tool validatedArgs w (record (EvHandler name validatedArgs) st).

(** The handler of a tool call, [dispatch(name, args)] in the
    specification.  An inherited property has no [schema], so
    [tool.schema.parse] throws inside the [try]. *)
Definition dispatch (registry : gmap string Tool) (name : string) (args : JsValue) : M JsValue :=
  match registry_get registry name with
  | None => ret (error_result ("Error: Unknown tool '" ++ name ++ "'"))
  | Some entry =>
      try_catch
        (match entry with
         | Inherited => throw (cannot_read "undefined" "parse")
         | Own tool =>
             let* validatedArgs :=
               lift (parse (schema tool) (js_or args (JObj ClsObject []))) in
             call_handler name tool validatedArgs
         end)
        on_error
  end.

(** The server answers the calls one after the other; a call whose handler
    rejects is answered with a protocol error by the SDK and the next call
    is served. *)
Fixpoint serve (registry : gmap string Tool) (calls : list (string * JsValue))
    (w : World) (st : State) : list (Completion JsValue) * State :=
  match calls with
  | [] => ([], st)
  | (name, args) :: rest =>
      let '(answer, st') := dispatch registry name args w st in
      let '(answers, st'') := serve registry rest w st' in
      (answer :: answers, st'')
  end.

(** The entries of [toolRegistry] whose handlers are embedded here. *)
Definition toolRegistry : gmap string Tool :=
  {[ "get-my-member-info" :=
       {| handler := Handlers.getMyMemberInfoHandler;
          schema := Handlers.getMyMemberInfoSchema |};
     "upload-attachment" :=
       {| handler := Handlers.uploadAttachmentHandler;
          schema := Handlers.uploadAttachmentSchema |} ]}.

End Dispatcher.

(** ** The wire envelope and the fixtures of the scenarios *)

Module Wire.
Import Js Fx.

(** [ApiResponse<T>] of types/dooray-api.ts. *)
Record Envelope := {
  isSuccessful : bool;
  resultCode : Z;
  resultMessage : string;
  result : JsValue }.

Definition envelope_value (e : Envelope) : JsValue :=
  JObj ClsObject
    [("header",
       JObj ClsObject
         [("isSuccessful", JBool (isSuccessful e));
          ("resultCode", JNum (resultCode e));
          ("resultMessage", JStr (resultMessage e))]);
     ("result", result e)].

(** The payload of the member-info scenario: [{id:"42", name:"Alice"}]. *)
Definition alice : JsValue :=
  JObj ClsObject [("id", JStr "42"); ("name", JStr "Alice")].

(** Its compact serialisation, [{"id":"42","name":"Alice"}]. *)
Definition alice_compact : string :=
  "{" ++ dquote ++ "id" ++ dquote ++ ":" ++ dquote ++ "42" ++ dquote ++ ","
  ++ dquote ++ "name" ++ dquote ++ ":" ++ dquote ++ "Alice" ++ dquote ++ "}".

(** Its serialisation with an indentation of two spaces. *)
Definition alice_indented : string :=
  "{" ++ newline
  ++ "  " ++ dquote ++ "id" ++ dquote ++ ": " ++ dquote ++ "42" ++ dquote ++ "," ++ newline
  ++ "  " ++ dquote ++ "name" ++ dquote ++ ": " ++ dquote ++ "Alice" ++ dquote ++ newline
  ++ "}".

Definition alice_envelope : Envelope :=
  {| isSuccessful := true; resultCode := 0; resultMessage := EmptyString; result := alice |}.

Definition config0 : DoorayConfig := {| apiToken := "token"; baseUrl := None |}.

(** A started server: nothing issued yet, the client initialised. *)
Definition started : State := {| trace := []; clientInstance := Some config0 |}.

Definition answer (code : Z) (hs : gmap string string) (body : JsValue) : Response :=
  {| status := code; response_headers := hs; response_data := body |}.

Definition reply (code : Z) (hs : gmap string string) (body : JsValue) : NetReply :=
  Replied (answer code hs body).

Definition bare_redirect : Response := answer 307 ∅ JNull.

Definition unauthorized_answer : Response := answer 401 ∅ JNull.

Definition alice_answer : Response := answer 200 ∅ (envelope_value alice_envelope).

Definition server_error : Response := answer 500 ∅ JNull.

Definition storage_redirect : Response :=
  answer 307 {["location" := "https://storage/x"]} JNull.

(** A world whose network gives one fixed answer, whose shell prints one
    fixed output, and in which the token is set and every file exists.
    [JSON.parse] is only asked about [{}] here. *)
Definition fixed_world (answer : NetReply) (out : string) : World :=
  {| net := fun _ _ => answer;
     shell := fun _ _ => Stdout out;
     existsSync := fun _ => true;
     env := fun k => if String.eqb k "DOORAY_API_TOKEN" then Some "token" else None;
     JSON_parse := fun _ => Normal (JObj ClsObject []);
     basename := fun p => p |}.

(** A world whose first request is answered by a 307 and whose later
    requests are answered by [final]. *)
Definition redirecting_world (location : gmap string string) (final : NetReply) : World :=
  {| net := fun before _ =>
              match before with
              | [] => reply 307 location JNull
              | _ => final
              end;
     shell := fun _ _ => Stdout EmptyString;
     existsSync := fun _ => true;
     env := fun k => if String.eqb k "DOORAY_API_TOKEN" then Some "token" else None;
     JSON_parse := fun _ => Normal (JObj ClsObject []);
     basename := fun p => p |}.

(** A successful envelope that carries no [result] (the body of a 200
    answer to an operation that returns nothing). *)
Definition bare_success : JsValue :=
  JObj ClsObject
    [("header",
       JObj ClsObject
         [("isSuccessful", JBool true);
          ("resultCode", JNum 0);
          ("resultMessage", JStr EmptyString)])].

Definition upload_args : JsValue :=
  JObj ClsObject
    [("projectId", JStr "1"); ("taskId", JStr "2"); ("filePath", JStr "/tmp/a.txt")].

(** The shapes the specification states, for comparison with the code. *)

(** A [RemoteError] with the given status code and message. *)
Definition is_remote_error (e : JsValue) (code : Z) (message : string) : Prop :=
  instanceof_DoorayAPIError e = true
  /\ get_opt e "statusCode" = JNum code
  /\ get_opt e "message" = JStr message.

(** [ToolResult{isError: flag, content: [{type:"text", text}]}] *)
Definition is_tool_result (v : JsValue) (flag : bool) (text : string) : Prop :=
  Tool.text_of v = JStr text /\ Tool.isError_of v = JBool flag.

End Wire.

(** ** The drive and project endpoints (api/drive.ts, api/projects.ts) *)

Module Api.
Import Js Fx Errors.

(** [obj.k = v]: the property keeps its place when it exists and is added
    at the end otherwise. *)
Fixpoint set_property (k : string) (v : JsValue) (fields : list (string * JsValue))
    : list (string * JsValue) :=
  match fields with
  | [] => [(k, v)]
  | (k', v') :: rest =>
      if String.eqb k k' then (k, v) :: rest else (k', v') :: set_property k v rest
  end.

(** [if (v) queryParams.k = v] *)
Definition set_if_truthy (k : string) (v : JsValue) (q : list (string * JsValue))
    : list (string * JsValue) :=
  if truthy v then set_property k v q else q.

(** [if (v !== undefined) queryParams.k = v] *)
Definition set_if_defined (k : string) (v : JsValue) (q : list (string * JsValue))
    : list (string * JsValue) :=
  match v with
  | JUndefined => q
  | _ => set_property k v q
  end.

(** [x ?? y] *)
Definition js_nullish (x y : JsValue) : JsValue :=
  match x with
  | JUndefined | JNull => y
  | _ => x
  end.

Definition DRIVE_BASE : string := "/drive/v1".

Definition PROJECTS_BASE : string := "/project/v1".

(** The query of [getDrives]: the four filters, each when it is truthy. *)
Definition drives_query (params : JsValue) : JsValue :=
  JObj ClsObject
    (set_if_truthy "projectId" (get_opt params "projectId")
       (set_if_truthy "state" (get_opt params "state")
          (set_if_truthy "scope" (get_opt params "scope")
             (set_if_truthy "type" (get_opt params "type") [])))).

Definition getDrives (params : JsValue) : M JsValue :=
  let* client := Client.getClient in
  Client.getPaginated client (DRIVE_BASE ++ "/drives") (drives_query params).

(** The query of [getDriveFiles]: [page] and [size] are sent whenever they
    are given, the other three when they are truthy. *)
Definition drive_files_query (params : JsValue) : JsValue :=
  JObj ClsObject
    (set_if_defined "size" (get_opt params "size")
       (set_if_defined "page" (get_opt params "page")
          (set_if_truthy "subTypes" (get_opt params "subTypes")
             (set_if_truthy "type" (get_opt params "type")
                (set_if_truthy "parentId" (get_opt params "parentId") []))))).

Definition getDriveFiles (params : JsValue) : M JsValue :=
  let* client := Client.getClient in
  let* _ := lift (get params "parentId") in
  Client.getPaginated client
    (DRIVE_BASE ++ "/drives/" ++ to_string (get_opt params "driveId") ++ "/files")
    (drive_files_query params).

Definition getDriveFileMeta (fileId : string) : M JsValue :=
  let* client := Client.getClient in
  Client.get client (DRIVE_BASE ++ "/files/" ++ fileId)
    (JObj ClsObject [("media", JStr "meta")]) no_headers.

Definition createDriveFolder (params : JsValue) : M JsValue :=
  let* client := Client.getClient in
  let* driveId := lift (get params "driveId") in
  Client.post client
    (DRIVE_BASE ++ "/drives/" ++ to_string driveId ++ "/files/"
       ++ to_string (get_opt params "folderId") ++ "/create-folder")
    (JObj ClsObject [("name", get_opt params "name")]) no_headers.

(** The request of a rename. *)
Definition rename_request (c : DoorayConfig) (params : JsValue) : Request :=
  Client.instance_config c PUT
    (DRIVE_BASE ++ "/drives/" ++ to_string (get_opt params "driveId") ++ "/files/"
       ++ to_string (get_opt params "fileId") ++ "?media=meta")
    (JObj ClsObject [("name", get_opt params "name")]) JUndefined no_headers.

(** The four operations below await the call and return nothing. *)
Definition renameDriveFile (params : JsValue) : M JsValue :=
  let* client := Client.getClient in
  let* driveId := lift (get params "driveId") in
  let* _ :=
    Client.put client
      (DRIVE_BASE ++ "/drives/" ++ to_string driveId ++ "/files/"
         ++ to_string (get_opt params "fileId") ++ "?media=meta")
      (JObj ClsObject [("name", get_opt params "name")]) no_headers in
  ret JUndefined.

Definition moveDriveFile (params : JsValue) : M JsValue :=
  let* client := Client.getClient in
  let* driveId := lift (get params "driveId") in
  let* _ :=
    Client.post client
      (DRIVE_BASE ++ "/drives/" ++ to_string driveId ++ "/files/"
         ++ to_string (get_opt params "fileId") ++ "/move")
      (JObj ClsObject [("destinationFileId", get_opt params "destinationFileId")])
      no_headers in
  ret JUndefined.

Definition copyDriveFile (params : JsValue) : M JsValue :=
  let* client := Client.getClient in
  let* driveId := lift (get params "driveId") in
  let* _ :=
    Client.post client
      (DRIVE_BASE ++ "/drives/" ++ to_string driveId ++ "/files/"
         ++ to_string (get_opt params "fileId") ++ "/copy")
      (JObj ClsObject
         [("destinationDriveId", get_opt params "destinationDriveId");
          ("destinationFileId", get_opt params "destinationFileId")])
      no_headers in
  ret JUndefined.

Definition deleteDriveFile (driveId fileId : string) : M JsValue :=
  let* client := Client.getClient in
  let* _ :=
    Client.delete client
      (DRIVE_BASE ++ "/drives/" ++ driveId ++ "/files/" ++ fileId) no_headers in
  ret JUndefined.

Definition raw_media : JsValue := JObj ClsObject [("media", JStr "raw")].

Definition drive_file_path (driveId fileId : string) : string :=
  DRIVE_BASE ++ "/drives/" ++ driveId ++ "/files/" ++ fileId.

Definition downloadDriveFile (driveId fileId : string) : M JsValue :=
  let* client := Client.getClient in
  Client.downloadFile client (drive_file_path driveId fileId) raw_media.

Definition task_file_path (projectId taskId fileId : string) : string :=
  PROJECTS_BASE ++ "/projects/" ++ projectId ++ "/posts/" ++ taskId ++ "/files/" ++ fileId.

Definition downloadTaskAttachment (projectId taskId fileId : string) : M JsValue :=
  let* client := Client.getClient in
  Client.downloadFile client (task_file_path projectId taskId fileId) raw_media.

Definition deleteTaskAttachment (projectId taskId fileId : string) : M JsValue :=
  let* client := Client.getClient in
  let* _ := Client.delete client (task_file_path projectId taskId fileId) no_headers in
  ret JUndefined.

(** The query of [getProjects]: [page || 0] and [size || 20]. *)
Definition projects_query (params : JsValue) : JsValue :=
  JObj ClsObject
    [("member", JStr "me");
     ("state", JStr "active");
     ("page", js_or (get_opt params "page") (JNum 0));
     ("size", js_or (get_opt params "size") (JNum 20))].

Definition getProjects (params : JsValue) : M JsValue :=
  let* client := Client.getClient in
  Client.getPaginated client (PROJECTS_BASE ++ "/projects") (projects_query params).

(** The query of [getProjectMemberGroups]: [page ?? 0] and [size ?? 20]. *)
Definition member_groups_query (params : JsValue) : JsValue :=
  JObj ClsObject
    [("page", js_nullish (get_opt params "page") (JNum 0));
     ("size", js_nullish (get_opt params "size") (JNum 20))].

(** The endpoint answers with the list inside a list; when the first
    element of [result.data] is an array it replaces [result.data]. *)
Definition flatten_groups (result : JsValue) : JsValue :=
  match result with
  | JObj cls fields =>
      match assoc "data" fields with
      | Some (JArr (JArr inner :: _)) => JObj cls (set_property "data" (JArr inner) fields)
      | _ => result
      end
  | _ => result
  end.

Definition getProjectMemberGroups (params : JsValue) : M JsValue :=
  let* client := Client.getClient in
  let* page := lift (get params "page") in
  let* result :=
    Client.getPaginated client
      (PROJECTS_BASE ++ "/projects/" ++ to_string (get_opt params "projectId")
         ++ "/member-groups")
      (member_groups_query params) in
  ret (flatten_groups result).

End Api.

(** ** [transformMembers] (utils/member-transform.ts) *)

Module Members.
Import Js Errors.

(** One member in the format of the API; an unknown type is an error. *)
Definition transformMember (m : JsValue) : Completion JsValue :=
  match get m "type" with
  | Throw e => Throw e
  | Normal ty =>
      let id := get_opt m "id" in
      match ty with
      | JStr "member" =>
          Normal (JObj ClsObject
                    [("type", JStr "member");
                     ("member", JObj ClsObject [("organizationMemberId", id)])])
      | JStr "email" =>
          Normal (JObj ClsObject
                    [("type", JStr "email");
                     ("member", JObj ClsObject [("emailAddress", id)])])
      | JStr "group" =>
          Normal (JObj ClsObject
                    [("type", JStr "group");
                     ("group", JObj ClsObject [("projectMemberGroupId", id)])])
      | _ => Throw (new_Error ("Unknown member type: " ++ to_string ty))
      end
  end.

(** [members.map(...)]: the first element that throws ends the map. *)
Fixpoint transformEach (members : list JsValue) : Completion (list JsValue) :=
  match members with
  | [] => Normal []
  | m :: rest =>
      match transformMember m with
      | Throw e => Throw e
      | Normal t =>
          match transformEach rest with
          | Throw e => Throw e
          | Normal ts => Normal (t :: ts)
          end
      end
  end.

(** [v === 0] *)
Definition is_zero (v : JsValue) : bool :=
  match v with
  | JNum 0 => true
  | _ => false
  end.

Definition transformMembers (members : JsValue) : Completion JsValue :=
  if negb (truthy members) || is_zero (get_opt members "length") then Normal JUndefined
  else
    match members with
    | JArr items =>
        match transformEach items with
        | Throw e => Throw e
        | Normal ts => Normal (JArr ts)
        end
    | _ => Throw (type_error "members.map is not a function")
    end.

(** A member as the tools receive it: [{ id, type }]. *)
Definition member_input (id kind : string) : JsValue :=
  JObj ClsObject [("id", JStr id); ("type", JStr kind)].

Definition known_kind (kind : string) : bool :=
  String.eqb kind "member" || String.eqb kind "email" || String.eqb kind "group".

End Members.

(** ** The logger (utils/logger.ts) *)

Module Logger.

Inductive LogLevel := ERROR | WARN | INFO | DEBUG.

Definition LogLevel_eqb (a b : LogLevel) : bool :=
  match a, b with
  | ERROR, ERROR | WARN, WARN | INFO, INFO | DEBUG, DEBUG => true
  | _, _ => false
  end.

Definition levels : list LogLevel := [ERROR; WARN; INFO; DEBUG].

(** [xs.indexOf(x)]: the first position of [x], or -1. *)
Fixpoint indexOf (x : LogLevel) (xs : list LogLevel) : Z :=
  match xs with
  | [] => -1
  | y :: rest =>
      if LogLevel_eqb y x then 0
      else match indexOf x rest with
           | -1 => -1
           | i => i + 1
           end
  end.

(** [shouldLog(level)] for a logger set to [current]. *)
Definition shouldLog (current level : LogLevel) : bool :=
  indexOf level levels <=? indexOf current levels.

(** The level of a fresh logger. *)
Definition initial_level : LogLevel := INFO.

End Logger.

(** ** The handlers of [get-drive-file-meta] and [rename-drive-file] *)

Module DriveHandlers.
Import Js Fx Errors Tool.

Definition getDriveFileMetaSchema : Schema := z_object_of_strings ["fileId"].

Definition getDriveFileMetaHandler (args : JsValue) : M JsValue :=
  try_catch
    (let* result := Api.getDriveFileMeta (to_string (get_opt args "fileId")) in
     ret (success_result (Json.stringify2 result)))
    (fun error => ret (error_result ("Error: " ++ formatError error))).

Definition renameDriveFileSchema : Schema :=
  z_object_of_strings ["driveId"; "fileId"; "name"].

Definition renamed_text (args : JsValue) : JsValue :=
  Json.stringify2
    (JObj ClsObject
       [("success", JBool true);
        ("message",
          JStr ("File/folder renamed to " ++ dquote ++ to_string (get_opt args "name")
                ++ dquote ++ " successfully."))]).

Definition renameDriveFileHandler (args : JsValue) : M JsValue :=
  try_catch
    (let* _ := Api.renameDriveFile args in
     ret (success_result (renamed_text args)))
    (fun error => ret (error_result ("Error: " ++ formatError error))).

End DriveHandlers.

(** ** [get-task-comment-list]: the API call, the response filters and the
    handler *)

Module Comments.
Import Js Fx Errors Tool.







End Comments.

(** ** What a call on the client comes to *)

Module Outcome.
Import Js Fx Errors.

(** The outcome of a call on the client's instance, read off the answer of
    the network: the response on 2xx, an [AuthenticationError] on 401, and
    otherwise a [DoorayAPIError] with the message of the body, the status
    and the body, or with "Network error: " and the reason when no response
    arrived. *)
Definition instance_outcome (reply : NetReply) : Completion Response :=
  match reply with
  | Unreachable reason =>
      Throw (new_DoorayAPIError ("Network error: " ++ reason) JUndefined JUndefined)
  | Replied r =>
      if Axios.validate_default (status r) then Normal r
      else if status r =? 401
           then Throw (new_AuthenticationError "Invalid or expired API token")
           else Throw (new_DoorayAPIError
                         (to_string
                            (js_or (get_opt (get_opt (response_data r) "header")
                                      "resultMessage")
                               (js_or (get_opt (response_data r) "message")
                                  (JStr "API request failed"))))
                         (JNum (status r)) (response_data r))
  end.

End Outcome.

(** ** Paginated envelopes *)

Module Paged.
Import Js Fx Wire.

(** The body of a list endpoint: the envelope and [totalCount] beside it. *)
Definition paginated_value (e : Envelope) (totalCount : JsValue) : JsValue :=
  JObj ClsObject
    [("header",
       JObj ClsObject
         [("isSuccessful", JBool (isSuccessful e));
          ("resultCode", JNum (resultCode e));
          ("resultMessage", JStr (resultMessage e))]);
     ("result", result e);
     ("totalCount", totalCount)].

(** [{ totalCount, data }] *)
Definition page_of (totalCount data : JsValue) : JsValue :=
  JObj ClsObject [("totalCount", totalCount); ("data", data)].

(** The message of the error for an unsuccessful envelope. *)
Definition failure_message (e : Envelope) : string :=
  if String.eqb (resultMessage e) EmptyString then "API request failed"
  else resultMessage e.

End Paged.

(** ** More fixtures *)

Module Fixtures.
Import Js Fx Tool.

(** A tool that accepts any arguments and whose handler throws [e]. *)
Definition throwing_tool (e : JsValue) : Tool :=
  {| handler := fun _ => throw e; schema := fun v => Parsed v |}.

(** The text of the upload handler on success. *)
Definition uploaded_text (fileId : JsValue) (fileName : string) : JsValue :=
  Json.stringify2
    (JObj ClsObject
       [("success", JBool true);
        ("fileId", fileId);
        ("fileName", JStr fileName);
        ("message",
          JStr ("File " ++ dquote ++ fileName ++ dquote
                ++ " successfully uploaded to task."))]).


End Fixtures.

(** * Properties of the transport client *)

Module ClientProofs.
Import Js Fx Errors Client Wire.

(** What a request yields once the answer of the network is known. *)
Lemma request_replied (validateStatus : Z -> bool) (req : Request) (w : World)
    (st : State) (r : Response) :
  net w (trace st) req = Replied r ->
  Axios.request validateStatus req w st =
    (if validateStatus (status r) then Normal r else Throw (Axios.status_error r),
     record (EvHttp req) st).
Proof.
  intros Hnet. unfold Axios.request. rewrite Hnet.
  destruct (validateStatus (status r)); reflexivity.
Qed.

Lemma validate_transfer_307 : validate_transfer 307 = true.
Proof. reflexivity. Qed.

Lemma validate_transfer_2xx (s : Z) :
  200 <= s < 300 -> validate_transfer s = true /\ (s =? 307) = false.
Proof.
  intros Hs. unfold validate_transfer. split.
  - replace (200 <=? s) with true by (symmetry; apply Z.leb_le; lia).
    replace (s <? 300) with true by (symmetry; apply Z.ltb_lt; lia).
    apply orb_true_r.
  - apply Z.eqb_neq. lia.
Qed.

Lemma validate_transfer_other (s : Z) :
  s <> 307 -> ~ (200 <= s < 300) -> validate_transfer s = false.
Proof.
  intros H307 H2xx. unfold validate_transfer.
  apply orb_false_intro.
  - apply Z.eqb_neq. exact H307.
  - apply andb_false_iff.
    destruct (Z.leb_spec 200 s); [right; apply Z.ltb_ge; lia | left; reflexivity].
Qed.

Lemma header_absent (r : Response) (k : string) :
  response_headers r !! k = None -> Axios.header r k = JUndefined.
Proof. intros H. unfold Axios.header. rewrite H. reflexivity. Qed.

Lemma header_present (r : Response) (k v : string) :
  response_headers r !! k = Some v -> Axios.header r k = JStr v.
Proof. intros H. unfold Axios.header. rewrite H. reflexivity. Qed.

Lemma truthy_nonempty (s : string) : s <> EmptyString -> truthy (JStr s) = true.
Proof.
  intros Hs. simpl. destruct (String.eqb_spec s EmptyString); [contradiction | reflexivity].
Qed.

(** A first leg answered by 2xx ends an upload: the body of that response
    is the result and nothing else is requested. *)
Lemma uploadFile_direct (c : DoorayConfig) (path : string) (formData : JsValue)
    (hs : DoorayHeaders) (w : World) (st : State) (r : Response) :
  net w (trace st) (upload_initial c path formData hs) = Replied r ->
  200 <= status r < 300 ->
  uploadFile c path formData hs w st =
    (Normal (response_data r), record (EvHttp (upload_initial c path formData hs)) st).
Proof.
  intros Hnet Hs. destruct (validate_transfer_2xx _ Hs) as [Hv H307].
  unfold uploadFile, bind. rewrite (request_replied _ _ _ _ _ Hnet), Hv, H307.
  reflexivity.
Qed.

(** The same for a download: the bytes and the three headers of the first
    response are the result. *)
Lemma downloadFile_direct (c : DoorayConfig) (path : string) (query : JsValue)
    (w : World) (st : State) (r : Response) :
  net w (trace st) (download_initial c path query) = Replied r ->
  200 <= status r < 300 ->
  downloadFile c path query w st =
    (Normal (download_result r), record (EvHttp (download_initial c path query)) st).
Proof.
  intros Hnet Hs. destruct (validate_transfer_2xx _ Hs) as [Hv H307].
  unfold downloadFile, bind. rewrite (request_replied _ _ _ _ _ Hnet), Hv, H307.
  reflexivity.
Qed.

(** The two legs of a redirected upload: the answer of the second request
    is the result, whatever it is. *)
Lemma uploadFile_redirected (c : DoorayConfig) (path : string) (formData : JsValue)
    (hs : DoorayHeaders) (w : World) (st : State) (r : Response) (L : string) :
  net w (trace st) (upload_initial c path formData hs) = Replied r ->
  status r = 307 ->
  response_headers r !! "location" = Some L ->
  L <> EmptyString ->
  uploadFile c path formData hs w st =
    (let* response :=
       Axios.request Axios.validate_default (upload_followup c L formData hs) in
     ret (response_data response))
      w (record (EvHttp (upload_initial c path formData hs)) st).
Proof.
  intros Hnet Hs Hloc HL.
  unfold uploadFile. unfold bind at 1.
  rewrite (request_replied _ _ _ _ _ Hnet), Hs, validate_transfer_307.
  cbv beta iota. rewrite Hs, (header_present _ _ _ Hloc), (truthy_nonempty _ HL).
  reflexivity.
Qed.

Lemma downloadFile_redirected (c : DoorayConfig) (path : string) (query : JsValue)
    (w : World) (st : State) (r : Response) (L : string) :
  net w (trace st) (download_initial c path query) = Replied r ->
  status r = 307 ->
  response_headers r !! "location" = Some L ->
  L <> EmptyString ->
  downloadFile c path query w st =
    (let* response :=
       Axios.request Axios.validate_default (download_followup c L query) in
     ret (download_result response))
      w (record (EvHttp (download_initial c path query)) st).
Proof.
  intros Hnet Hs Hloc HL.
  unfold downloadFile. unfold bind at 1.
  rewrite (request_replied _ _ _ _ _ Hnet), Hs, validate_transfer_307.
  cbv beta iota. rewrite Hs, (header_present _ _ _ Hloc), (truthy_nonempty _ HL).
  reflexivity.
Qed.

Lemma headers_map_no_authorization (hs : DoorayHeaders) :
  headers_map hs !! "Authorization" = None.
Proof.
  destruct hs as [[a|] [b|] [d|]]; unfold headers_map, set_header; simpl;
    repeat (rewrite lookup_insert_ne by discriminate); apply lookup_empty.
Qed.

Lemma transfer_headers_authorization (c : DoorayConfig) (hs : DoorayHeaders) :
  transfer_headers c hs !! "Authorization" = Some (authHeader c).
Proof.
  unfold transfer_headers.
  rewrite lookup_union_r by apply headers_map_no_authorization.
  apply lookup_singleton_eq.
Qed.

Lemma followup_settled (req : Request) (result : Response -> JsValue) (w : World) (st : State) :
  (let* response := Axios.request Axios.validate_default req in ret (result response)) w st =
    (Axios.settled (net w (trace st) req) result, record (EvHttp req) st).
Proof.
  unfold bind, ret, Axios.request, Axios.settled.
  destruct (net w (trace st) req) as [r2 | message]; [| reflexivity].
  destruct (Axios.validate_default (status r2)); reflexivity.
Qed.

(** C2 as amended: a transfer whose first leg is answered by 307 with a
    non-empty [Location] header [L] issues exactly one more request, to [L],
    with the method, the body or the query and the headers (the
    [Authorization] header of the client among them) of the first one, and
    the outcome of that request is the outcome of the transfer. *)
Theorem redirect_replay (c : DoorayConfig) (path : string) (formData query : JsValue)
    (hs : DoorayHeaders) (w : World) (st : State) (r : Response) (L : string)
    (Hstatus : status r = 307)
    (Hlocation : response_headers r !! "location" = Some L)
    (Hnonempty : L <> EmptyString) :
  (let first := upload_initial c path formData hs in
   let second := upload_followup c L formData hs in
   let st1 := record (EvHttp first) st in
   net w (trace st) first = Replied r ->
   uploadFile c path formData hs w st =
     (Axios.settled (net w (trace st1) second) response_data, record (EvHttp second) st1)
   /\ url second = L
   /\ method second = POST /\ method first = POST
   /\ data second = data first
   /\ headers second = headers first
   /\ headers second !! "Authorization" = Some (authHeader c))
  /\
  (let first := download_initial c path query in
   let second := download_followup c L query in
   let st1 := record (EvHttp first) st in
   net w (trace st) first = Replied r ->
   downloadFile c path query w st =
     (Axios.settled (net w (trace st1) second) download_result, record (EvHttp second) st1)
   /\ url second = L
   /\ method second = GET /\ method first = GET
   /\ params second = params first
   /\ headers second = headers first
   /\ headers second !! "Authorization" = Some (authHeader c)).
Proof.
  split; intros first second st1 Hnet.
  - split.
    + rewrite (uploadFile_redirected _ _ _ _ _ _ _ _ Hnet Hstatus Hlocation Hnonempty).
      apply followup_settled.
    + repeat split. apply transfer_headers_authorization.
  - split.
    + rewrite (downloadFile_redirected _ _ _ _ _ _ _ Hnet Hstatus Hlocation Hnonempty).
      apply followup_settled.
    + repeat split.
Qed.

(** C2 as stated fails when the [Location] header is there but empty: the
    client treats it as missing and issues no second request. *)
Lemma redirect_replay_empty_location :
  let w := redirecting_world {["location" := EmptyString]} (reply 200 ∅ JNull) in
  let first := upload_initial config0 "/files" JNull no_headers in
  let second := upload_followup config0 EmptyString JNull no_headers in
  net w (trace started) first = reply 307 {["location" := EmptyString]} JNull
  /\ uploadFile config0 "/files" JNull no_headers w started =
       (Throw no_location, record (EvHttp first) started)
  /\ trace (snd (uploadFile config0 "/files" JNull no_headers w started))
       <> [EvHttp first; EvHttp second].
Proof.
  cbv zeta. split; [reflexivity |]. split.
  - vm_compute. reflexivity.
  - vm_compute. intros H. discriminate H.
Qed.

(** C2 at a concrete redirect: the upload of the scenario. *)
Lemma redirect_replay_witness :
  let w := redirecting_world {["location" := "https://storage/x"]}
             (reply 200 ∅ (envelope_value alice_envelope)) in
  uploadFile config0 "/files" JNull no_headers w started =
    (Normal (envelope_value alice_envelope),
     record (EvHttp (upload_followup config0 "https://storage/x" JNull no_headers))
       (record (EvHttp (upload_initial config0 "/files" JNull no_headers)) started)).
Proof.
  cbv zeta.
  pose proof (redirect_replay config0 "/files" JNull JNull no_headers
    (redirecting_world {["location" := "https://storage/x"]}
       (reply 200 ∅ (envelope_value alice_envelope)))
    started
    storage_redirect
    "https://storage/x" eq_refl eq_refl ltac:(discriminate)) as [Hup _].
  destruct (Hup eq_refl) as [Hrun _]. exact Hrun.
Defined.

(** C10: a first leg answered by 307 without a [Location] header makes the
    transfer fail with the [DoorayAPIError] "307 redirect received but no
    Location header found"; the first request is the only one issued. *)
Theorem redirect_without_location (c : DoorayConfig) (path : string)
    (formData query : JsValue) (hs : DoorayHeaders) (w : World) (st : State)
    (r : Response)
    (Hstatus : status r = 307)
    (Hlocation : response_headers r !! "location" = None) :
  (net w (trace st) (upload_initial c path formData hs) = Replied r ->
   uploadFile c path formData hs w st =
     (Throw no_location, record (EvHttp (upload_initial c path formData hs)) st))
  /\ (net w (trace st) (download_initial c path query) = Replied r ->
      downloadFile c path query w st =
        (Throw no_location, record (EvHttp (download_initial c path query)) st))
  /\ instanceof_DoorayAPIError no_location = true
  /\ get_opt no_location "message" =
       JStr "307 redirect received but no Location header found".
Proof.
  split; [| split; [| split; reflexivity]]; intros Hnet.
  - unfold uploadFile, bind.
    rewrite (request_replied _ _ _ _ _ Hnet), Hstatus, validate_transfer_307.
    cbv beta iota. rewrite Hstatus, (header_absent _ _ Hlocation). reflexivity.
  - unfold downloadFile, bind.
    rewrite (request_replied _ _ _ _ _ Hnet), Hstatus, validate_transfer_307.
    cbv beta iota. rewrite Hstatus, (header_absent _ _ Hlocation). reflexivity.
Qed.

Lemma redirect_without_location_witness :
  let w := fixed_world (Replied bare_redirect) EmptyString in
  uploadFile config0 "/files" JNull no_headers w started =
    (Throw no_location,
     record (EvHttp (upload_initial config0 "/files" JNull no_headers)) started)
  /\ downloadFile config0 "/files" JNull w started =
       (Throw no_location,
        record (EvHttp (download_initial config0 "/files" JNull)) started).
Proof.
  cbv zeta.
  destruct (redirect_without_location config0 "/files" JNull JNull no_headers
    (fixed_world (Replied bare_redirect) EmptyString) started
    bare_redirect
    eq_refl ltac:(vm_compute; reflexivity)) as (Hup & Hdown & _).
  split; [apply Hup | apply Hdown]; reflexivity.
Defined.

(** C5 as stated fails: a first leg answered by 500 makes the upload fail
    with the library's error, which is no [DoorayAPIError] and does not say
    "unexpected status". *)
Lemma unexpected_status_not_remote_error :
  let w := fixed_world (Replied server_error) EmptyString in
  ~ exists e st',
      uploadFile config0 "/files" JNull no_headers w started = (Throw e, st')
      /\ is_remote_error e 500 "unexpected status".
Proof.
  cbv zeta. intros (e & st' & Hrun & Hinst & _).
  vm_compute in Hrun. injection Hrun as He _. subst e.
  discriminate Hinst.
Qed.

(** C5 as amended: a first leg answered by a status that is neither 307 nor
    2xx makes the transfer fail with the library's error for that response,
    which carries the response and its status code and is no
    [DoorayAPIError]; the first request is the only one issued. *)
Theorem unexpected_status (c : DoorayConfig) (path : string)
    (formData query : JsValue) (hs : DoorayHeaders) (w : World) (st : State)
    (r : Response)
    (H307 : status r <> 307)
    (H2xx : ~ (200 <= status r < 300)) :
  (net w (trace st) (upload_initial c path formData hs) = Replied r ->
   uploadFile c path formData hs w st =
     (Throw (Axios.status_error r),
      record (EvHttp (upload_initial c path formData hs)) st))
  /\ (net w (trace st) (download_initial c path query) = Replied r ->
      downloadFile c path query w st =
        (Throw (Axios.status_error r),
         record (EvHttp (download_initial c path query)) st))
  /\ get_opt (get_opt (Axios.status_error r) "response") "status" = JNum (status r)
  /\ get_opt (Axios.status_error r) "message" =
       JStr ("Request failed with status code " ++ pretty (status r))
  /\ instanceof_DoorayAPIError (Axios.status_error r) = false.
Proof.
  pose proof (validate_transfer_other _ H307 H2xx) as Hv.
  split; [| split; [| repeat split]]; intros Hnet.
  - unfold uploadFile, bind. rewrite (request_replied _ _ _ _ _ Hnet), Hv. reflexivity.
  - unfold downloadFile, bind. rewrite (request_replied _ _ _ _ _ Hnet), Hv. reflexivity.
Qed.

Lemma unexpected_status_witness :
  let w := fixed_world (Replied server_error) EmptyString in
  uploadFile config0 "/files" JNull no_headers w started =
    (Throw (Axios.status_error server_error),
     record (EvHttp (upload_initial config0 "/files" JNull no_headers)) started)
  /\ downloadFile config0 "/files" JNull w started =
       (Throw (Axios.status_error server_error),
        record (EvHttp (download_initial config0 "/files" JNull)) started).
Proof.
  cbv zeta.
  destruct (unexpected_status config0 "/files" JNull JNull no_headers
    (fixed_world (Replied server_error) EmptyString) started
    server_error
    ltac:(discriminate) ltac:(simpl; lia)) as (Hup & Hdown & _).
  split; [apply Hup | apply Hdown]; reflexivity.
Defined.

(** What [extractResult] does on every envelope, the empty message
    included. *)
Lemma extractResult_envelope (e : Envelope) (code : Z) (hs : gmap string string) :
  extractResult (answer code hs (envelope_value e)) =
    if isSuccessful e then Normal (result e)
    else Throw (new_DoorayAPIError
                  (if String.eqb (resultMessage e) EmptyString
                   then "API request failed" else resultMessage e)
                  (JNum code) (envelope_value e)).
Proof.
  destruct e as [[|] rc message payload]; [reflexivity |].
  unfold extractResult, js_or. simpl.
  destruct (String.eqb message EmptyString); reflexivity.
Qed.

(** C4: [extractResult] returns the payload of a successful envelope, and
    fails on an unsuccessful one (whose message is not empty) with a
    [DoorayAPIError]: the thrown value is an instance of that class, its
    message is the message of the envelope, and it carries the status and
    the response body.  The outcome is a function of the status and the body
    alone: the headers of the response do not matter, and a call through the
    client that is answered by the same response has the same outcome
    whatever the world and the state it runs in. *)
Theorem extractResult_unwraps (e : Envelope) (code : Z) (hs : gmap string string) :
  let response := answer code hs (envelope_value e) in
  let failure := new_DoorayAPIError (resultMessage e) (JNum code) (envelope_value e) in
  (isSuccessful e = true -> extractResult response = Normal (result e))
  /\ (isSuccessful e = false ->
      resultMessage e <> EmptyString ->
      extractResult response = Throw failure)
  /\ instanceof_DoorayAPIError failure = true
  /\ instanceof_AuthenticationError failure = false
  /\ get_opt failure "message" = JStr (resultMessage e)
  /\ get_opt failure "statusCode" = JNum code
  /\ get_opt failure "responseData" = envelope_value e
  /\ get_opt failure "name" = JStr "DoorayAPIError"
  /\ (forall hs', extractResult (answer code hs' (envelope_value e)) = extractResult response)
  /\ (forall (c : DoorayConfig) (path : string) (query : JsValue) (headers : DoorayHeaders)
             (w w' : World) (st st' : State),
        200 <= code < 300 ->
        net w (trace st) (instance_config c GET path JUndefined query headers) =
          Replied response ->
        net w' (trace st') (instance_config c GET path JUndefined query headers) =
          Replied response ->
        fst (Client.get c path query headers w st) = extractResult response
        /\ fst (Client.get c path query headers w' st') = extractResult response).
Proof.
  cbv zeta. rewrite extractResult_envelope.
  split; [| split; [| split; [| split; [| split; [| split; [| split; [| split; [| split]]]]]]]].
  - intros ->. reflexivity.
  - intros -> Hmessage.
    destruct (String.eqb_spec (resultMessage e) EmptyString); [contradiction | reflexivity].
  - reflexivity.
  - reflexivity.
  - reflexivity.
  - reflexivity.
  - reflexivity.
  - reflexivity.
  - intros hs'. apply extractResult_envelope.
  - intros c path query headers w w' st st' H2xx Hnet Hnet'.
    assert (Hvalid : Axios.validate_default code = true).
    { unfold Axios.validate_default. apply andb_true_intro.
      split; [apply Z.leb_le | apply Z.ltb_lt]; lia. }
    rewrite <- (extractResult_envelope e code hs).
    unfold Client.get, instance_request, try_catch, bind, lift.
    rewrite (request_replied _ _ _ _ _ Hnet), (request_replied _ _ _ _ _ Hnet').
    cbn [status answer]. rewrite Hvalid. split; reflexivity.
Qed.

Lemma extractResult_unwraps_witness :
  extractResult (answer 200 ∅ (envelope_value alice_envelope)) = Normal alice
  /\ extractResult
       (answer 200 ∅
          (envelope_value
             {| isSuccessful := false; resultCode := -1; resultMessage := "no such member";
                result := JNull |})) =
     Throw (JObj ClsDoorayAPIError
              [("message", JStr "no such member");
               ("statusCode", JNum 200);
               ("responseData",
                 envelope_value
                   {| isSuccessful := false; resultCode := -1;
                      resultMessage := "no such member"; result := JNull |});
               ("name", JStr "DoorayAPIError")])
  /\ fst (Client.get config0 "/common/v1/members/me" JUndefined no_headers
            (fixed_world (Replied alice_answer) EmptyString) started) = Normal alice.
Proof.
  split; [| split].
  - exact (proj1 (extractResult_unwraps alice_envelope 200 ∅) eq_refl).
  - refine (proj1 (proj2 (extractResult_unwraps
                            {| isSuccessful := false; resultCode := -1;
                               resultMessage := "no such member"; result := JNull |}
                            200 ∅)) eq_refl _).
    discriminate.
  - pose proof (extractResult_unwraps alice_envelope 200 ∅) as H. cbv zeta in H.
    destruct H as (Hok & _ & _ & _ & _ & _ & _ & _ & _ & Hget).
    refine (eq_trans
              (proj1 (Hget config0 "/common/v1/members/me" JUndefined no_headers
                        (fixed_world (Replied alice_answer) EmptyString)
                        (fixed_world (Replied alice_answer) EmptyString) started started
                        _ eq_refl eq_refl))
              (Hok eq_refl)).
    lia.
Defined.

Lemma validate_default_401 : Axios.validate_default 401 = false.
Proof. reflexivity. Qed.

(** A call on the client's instance that is answered by 401 is rejected by
    the response interceptor with an [AuthenticationError]. *)
Lemma instance_request_401 (c : DoorayConfig) (m : Method) (path : string)
    (body query : JsValue) (hs : DoorayHeaders) (w : World) (st : State) (r : Response) :
  net w (trace st) (instance_config c m path body query hs) = Replied r ->
  status r = 401 ->
  instance_request c m path body query hs w st =
    (Throw (new_AuthenticationError "Invalid or expired API token"),
     record (EvHttp (instance_config c m path body query hs)) st).
Proof.
  intros Hnet Hs. unfold instance_request, try_catch.
  rewrite (request_replied _ _ _ _ _ Hnet), Hs, validate_default_401.
  unfold response_error_interceptor, Axios.status_error, Axios.new_AxiosError,
    Axios.response_value.
  simpl. rewrite Hs. reflexivity.
Qed.

Lemma bind_throw {A B} (m : M A) (k : A -> M B) (w : World) (st st' : State) (e : JsValue) :
  m w st = (Throw e, st') -> (let* a := m in k a) w st = (Throw e, st').
Proof. intros H. unfold bind. rewrite H. reflexivity. Qed.

End ClientProofs.

(** * Properties of the dispatcher and the handlers *)

Module DispatcherProofs.
Import Js Fx Errors Tool Handlers Dispatcher Wire ClientProofs.

Lemma well_formed_error_result (text : string) : well_formed (error_result text) = true.
Proof. reflexivity. Qed.

Lemma error_result_shape (text : string) : is_tool_result (error_result text) true text.
Proof. split; reflexivity. Qed.

(** C6 as stated fails: the text for an unknown tool starts with
    ["Error: "]. *)
Lemma unknown_tool_text_has_prefix :
  let w := fixed_world (Replied server_error) EmptyString in
  registry_get toolRegistry "unknown-tool" = None
  /\ ~ exists v st',
         dispatch toolRegistry "unknown-tool" (JObj ClsObject []) w started = (Normal v, st')
         /\ is_tool_result v true "Unknown tool 'unknown-tool'".
Proof.
  cbv zeta. split; [vm_compute; reflexivity |].
  intros (v & st' & Hrun & Htext & _).
  vm_compute in Hrun. injection Hrun as Hv _. subst v.
  discriminate Htext.
Qed.

(** C6 as amended: for a name [toolRegistry[name]] does not find, the
    dispatcher returns the error result with the text
    ["Error: Unknown tool '<name>'"]; nothing is issued and the state is
    untouched, and the server goes on to answer the calls that follow. *)
Theorem unknown_tool (registry : gmap string Tool) (name : string) (args : JsValue)
    (rest : list (string * JsValue)) (w : World) (st : State)
    (Habsent : registry_get registry name = None) :
  let answer := error_result ("Error: Unknown tool '" ++ name ++ "'") in
  dispatch registry name args w st = (Normal answer, st)
  /\ is_tool_result answer true ("Error: Unknown tool '" ++ name ++ "'")
  /\ serve registry ((name, args) :: rest) w st =
       (Normal answer :: fst (serve registry rest w st), snd (serve registry rest w st)).
Proof.
  cbv zeta.
  assert (Hrun : dispatch registry name args w st =
                 (Normal (error_result ("Error: Unknown tool '" ++ name ++ "'")), st)).
  { unfold dispatch. rewrite Habsent. reflexivity. }
  split; [exact Hrun |]. split; [apply error_result_shape |].
  simpl. rewrite Hrun. destruct (serve registry rest w st) as [answers st']. reflexivity.
Qed.

Lemma unknown_tool_witness :
  let w := fixed_world (Replied server_error) EmptyString in
  dispatch toolRegistry "unknown-tool" (JObj ClsObject []) w started =
    (Normal (error_result "Error: Unknown tool 'unknown-tool'"), started).
Proof.
  cbv zeta.
  apply (unknown_tool toolRegistry "unknown-tool" (JObj ClsObject []) []
           (fixed_world (Replied server_error) EmptyString) started).
  vm_compute. reflexivity.
Defined.

Lemma issue_line_of_issue (i : ZodIssue) : issue_line (issue_value i) = Normal (issue_text i).
Proof. reflexivity. Qed.

Lemma issue_lines_of_issues (issues : list ZodIssue) :
  issue_lines (issue_value <$> issues) = Normal (issue_text <$> issues).
Proof.
  induction issues as [| i issues IH]; [reflexivity |].
  change (issue_value <$> i :: issues) with (issue_value i :: (issue_value <$> issues)).
  cbn [issue_lines]. rewrite issue_line_of_issue, IH. reflexivity.
Qed.

(** The [catch] block on the error of a failed validation. *)
Lemma on_error_zod (issues : list ZodIssue) (w : World) (st : State) :
  on_error (new_ZodError issues) w st =
    (Normal (error_result ("Validation Error: " ++ join ", " (issue_text <$> issues))), st).
Proof.
  unfold on_error. cbn [truthy typeof_object has_property new_ZodError assoc String.eqb
                         Ascii.eqb Bool.eqb andb get_opt get default].
  unfold bind, lift, ret, errorMessages.
  cbn [get_opt get assoc String.eqb Ascii.eqb Bool.eqb default new_ZodError id].
  rewrite issue_lines_of_issues. reflexivity.
Qed.

(** C7: when the arguments of a registered tool fail its schema, the
    dispatcher returns the error result whose text is
    ["Validation Error: "] followed by the lines of the issues (path, colon,
    message) joined by [", "].  The state comes back as it was: the handler
    was not invoked and no request was issued. *)
Theorem validation_failure (registry : gmap string Tool) (name : string) (tool : Tool)
    (args : JsValue) (issues : list ZodIssue) (w : World) (st : State)
    (Hregistered : registry !! name = Some tool)
    (Hinvalid : schema tool (js_or args (JObj ClsObject [])) = Invalid issues) :
  let text := "Validation Error: " ++ join ", " (issue_text <$> issues) in
  dispatch registry name args w st = (Normal (error_result text), st)
  /\ is_tool_result (error_result text) true text
  /\ trace (snd (dispatch registry name args w st)) = trace st.
Proof.
  cbv zeta.
  assert (Hrun : dispatch registry name args w st =
                 (Normal (error_result
                            ("Validation Error: " ++ join ", " (issue_text <$> issues))), st)).
  { unfold dispatch, registry_get. rewrite Hregistered.
    unfold try_catch, bind, lift, parse. rewrite Hinvalid. apply on_error_zod. }
  split; [exact Hrun |]. split; [apply error_result_shape |].
  rewrite Hrun. reflexivity.
Qed.

Lemma validation_failure_witness :
  let w := fixed_world (Replied server_error) EmptyString in
  dispatch toolRegistry "upload-attachment" (JObj ClsObject [("projectId", JStr "1")]) w
    started =
    (Normal (error_result "Validation Error: taskId: Required, filePath: Required"),
     started).
Proof.
  cbv zeta.
  apply (validation_failure toolRegistry "upload-attachment"
           {| handler := uploadAttachmentHandler; schema := uploadAttachmentSchema |}
           (JObj ClsObject [("projectId", JStr "1")])
           [{| path := [JStr "taskId"]; message := "Required" |};
            {| path := [JStr "filePath"]; message := "Required" |}]
           (fixed_world (Replied server_error) EmptyString) started).
  - unfold toolRegistry. rewrite lookup_insert_ne by discriminate.
    apply lookup_singleton_eq.
  - vm_compute. reflexivity.
Defined.

(** The [catch] block on a thrown value without an [errors] property. *)
Lemma on_error_plain (error : JsValue) (w : World) (st : State) :
  has_property "errors" error = false ->
  on_error error w st =
    (Normal (error_result
               ("Error: " ++ (if instanceof_Error error
                              then to_string (get_opt error "message")
                              else to_string error))), st).
Proof.
  intros H. unfold on_error. rewrite H, !andb_false_r. reflexivity.
Qed.


(** C1 at [get-my-member-info], when the API answers 200 with a successful
    envelope that has no [result]: the client returns [undefined],
    [JSON.stringify(undefined, null, 2)] is [undefined] and not a string,
    and the dispatcher hands on a result whose one content item has no
    text.  That is no well-formed tool result. *)
Theorem dispatch_text_undefined :
  let w := fixed_world (reply 200 ∅ bare_success) EmptyString in
  let v :=
    JObj ClsObject
      [("content", JArr [JObj ClsObject [("type", JStr "text"); ("text", JUndefined)]])] in
  dispatch toolRegistry "get-my-member-info" (JObj ClsObject []) w started =
    (Normal v,
     record (EvHttp (member_info_request config0))
       (record (EvHandler "get-my-member-info" (JObj ClsObject [])) started))
  /\ text_of v = JUndefined
  /\ well_formed v = false.
Proof. vm_compute. repeat split. Qed.

Lemma toolRegistry_member_info :
  toolRegistry !! "get-my-member-info" =
    Some {| handler := getMyMemberInfoHandler; schema := getMyMemberInfoSchema |}.
Proof. apply lookup_insert_eq. Qed.

(** A call of [get-my-member-info] with an object for arguments reaches the
    handler, and the handler the client. *)
Lemma dispatch_member_info (fields : list (string * JsValue)) (c : DoorayConfig)
    (w : World) (st : State) :
  clientInstance st = Some c ->
  dispatch toolRegistry "get-my-member-info" (JObj ClsObject fields) w st =
    try_catch
      (let* result := Client.get c "/common/v1/members/me" JUndefined no_headers in
       ret (success_result (Json.stringify2 result)))
      (fun error => ret (error_result ("Error: " ++ formatError error)))
      w (record (EvHandler "get-my-member-info" (JObj ClsObject [])) st).
Proof.
  intros Hclient. unfold dispatch, registry_get. rewrite toolRegistry_member_info.
  match goal with
  | |- _ = ?rhs =>
      change (try_catch
                (call_handler "get-my-member-info"
                   {| handler := getMyMemberInfoHandler; schema := getMyMemberInfoSchema |}
                   (JObj ClsObject []))
                on_error w st = rhs)
  end.
  unfold call_handler, getMyMemberInfoHandler, getMyMemberInfo, Client.getClient.
  unfold try_catch, bind, ret. cbn [handler clientInstance record]. rewrite Hclient.
  destruct (Client.get c _ _ _ w _) as [[v | e] st']; reflexivity.
Qed.

(** C8 as stated fails twice: the text the dispatcher returns for a 401 is
    the one [formatError] makes, with the class prefix and the status, and
    a transfer answered by 401 fails with the library's error, which is no
    [AuthenticationError]. *)
Lemma unauthorized_text_and_transfer :
  let w := fixed_world (Replied unauthorized_answer) EmptyString in
  (~ exists v st',
       dispatch toolRegistry "get-my-member-info" (JObj ClsObject []) w started =
         (Normal v, st')
       /\ is_tool_result v true "Error: Invalid or expired API token")
  /\ (~ exists e st',
          Client.uploadFile config0 "/files" JNull no_headers w started = (Throw e, st')
          /\ instanceof_AuthenticationError e = true).
Proof.
  cbv zeta. split.
  - intros (v & st' & Hrun & Htext & _).
    vm_compute in Hrun. injection Hrun as Hv _. subst v. discriminate Htext.
  - intros (e & st' & Hrun & Hinst).
    vm_compute in Hrun. injection Hrun as He _. subst e. discriminate Hinst.
Qed.

(** C8 as amended: every call through the client's verbs ([get], [post],
    [put], [patch], [delete], [getPaginated]) that is answered by 401 fails
    with an [AuthenticationError], an instance of a subclass of
    [DoorayAPIError] that generic instances do not belong to; and the
    dispatcher answers [get-my-member-info] with the error result whose
    text is
    ["Error: Dooray API Error: Invalid or expired API token (Status: 401)"]. *)
Theorem unauthorized (c : DoorayConfig) (path : string) (body query : JsValue)
    (hs : DoorayHeaders) (fields : list (string * JsValue)) (w : World) (st : State)
    (Hdenied : forall before req, exists r, net w before req = Replied r /\ status r = 401)
    (Hclient : clientInstance st = Some c) :
  let denied := Throw (new_AuthenticationError "Invalid or expired API token") in
  fst (Client.get c path query hs w st) = denied
  /\ fst (Client.post c path body hs w st) = denied
  /\ fst (Client.put c path body hs w st) = denied
  /\ fst (Client.patch c path body hs w st) = denied
  /\ fst (Client.delete c path hs w st) = denied
  /\ fst (Client.getPaginated c path query w st) = denied
  /\ instanceof_AuthenticationError (new_AuthenticationError "Invalid or expired API token")
       = true
  /\ instanceof_DoorayAPIError (new_AuthenticationError "Invalid or expired API token")
       = true
  /\ (forall message code data,
        instanceof_AuthenticationError (new_DoorayAPIError message code data) = false)
  /\ dispatch toolRegistry "get-my-member-info" (JObj ClsObject fields) w st =
       (Normal (error_result
                  "Error: Dooray API Error: Invalid or expired API token (Status: 401)"),
        record (EvHttp (member_info_request c))
          (record (EvHandler "get-my-member-info" (JObj ClsObject [])) st)).
Proof.
  cbv zeta.
  assert (Hverb : forall m b q h st0 (k : Response -> M JsValue),
            (let* response := Client.instance_request c m path b q h in k response) w st0 =
              (Throw (new_AuthenticationError "Invalid or expired API token"),
               record (EvHttp (Client.instance_config c m path b q h)) st0)).
  { intros m b q h st0 k.
    destruct (Hdenied (trace st0) (Client.instance_config c m path b q h)) as (r & Hnet & Hs).
    apply bind_throw. apply (instance_request_401 _ _ _ _ _ _ _ _ _ Hnet Hs). }
  repeat split;
    try (unfold Client.get, Client.post, Client.put, Client.patch, Client.delete,
           Client.getPaginated; rewrite Hverb; reflexivity).
  rewrite (dispatch_member_info fields c w st Hclient).
  unfold try_catch, Client.get.
  destruct (Hdenied (trace (record (EvHandler "get-my-member-info" (JObj ClsObject [])) st))
              (member_info_request c)) as (r & Hnet & Hs).
  rewrite (bind_throw _ _ _ _ _ _
             (bind_throw _ _ _ _ _ _ (instance_request_401 _ _ _ _ _ _ _ _ _ Hnet Hs))).
  reflexivity.
Qed.

Lemma unauthorized_witness :
  let w := fixed_world (Replied unauthorized_answer) EmptyString in
  fst (Client.get config0 "/project/v1/projects" JUndefined no_headers w started) =
    Throw (new_AuthenticationError "Invalid or expired API token")
  /\ dispatch toolRegistry "get-my-member-info" (JObj ClsObject []) w started =
       (Normal (error_result
                  "Error: Dooray API Error: Invalid or expired API token (Status: 401)"),
        record (EvHttp (member_info_request config0))
          (record (EvHandler "get-my-member-info" (JObj ClsObject [])) started)).
Proof.
  cbv zeta.
  assert (Hdenied : forall before req, exists r,
            net (fixed_world (Replied unauthorized_answer) EmptyString) before req = Replied r
            /\ status r = 401).
  { intros before req. exists unauthorized_answer. split; reflexivity. }
  pose proof (unauthorized config0 "/project/v1/projects" JUndefined JUndefined no_headers []
                (fixed_world (Replied unauthorized_answer) EmptyString) started
                Hdenied eq_refl) as H.
  cbv zeta in H. destruct H as (Hget & _ & _ & _ & _ & _ & _ & _ & _ & Hdispatch).
  split; [exact Hget | exact Hdispatch].
Defined.

Lemma validate_default_2xx (s : Z) : 200 <= s < 300 -> Axios.validate_default s = true.
Proof.
  intros Hs. unfold Axios.validate_default. apply andb_true_intro. split.
  - apply Z.leb_le. lia.
  - apply Z.ltb_lt. lia.
Qed.

Lemma stringify_alice : Json.stringify2 alice = JStr alice_indented.
Proof. vm_compute. reflexivity. Qed.

(** C9 as stated fails: the text is the payload printed with an
    indentation of two spaces, not the compact form, and a success result
    has no [isError] property. *)
Lemma member_info_text_is_indented :
  let w := fixed_world (Replied alice_answer) EmptyString in
  (~ exists v st',
       dispatch toolRegistry "get-my-member-info" (JObj ClsObject []) w started =
         (Normal v, st')
       /\ text_of v = JStr alice_compact)
  /\ (~ exists v st',
          dispatch toolRegistry "get-my-member-info" (JObj ClsObject []) w started =
            (Normal v, st')
          /\ isError_of v = JBool false).
Proof.
  cbv zeta. split.
  - intros (v & st' & Hrun & Htext).
    vm_compute in Hrun. injection Hrun as Hv _. subst v.
    vm_compute in Htext. discriminate Htext.
  - intros (v & st' & Hrun & Hflag).
    vm_compute in Hrun. injection Hrun as Hv _. subst v. discriminate Hflag.
Qed.

(** C9 as amended: when the client's request is answered by 2xx with a
    successful envelope whose payload is [{id:"42", name:"Alice"}], the
    dispatcher answers [get-my-member-info] with
    [{content:[{type:"text", text}]}] where [text] is the payload as
    [JSON.stringify(payload, null, 2)] prints it, on four lines; the result
    has no [isError] property. *)
Theorem member_info_success (c : DoorayConfig) (fields : list (string * JsValue))
    (e : Envelope) (r : Response) (w : World) (st : State)
    (Hclient : clientInstance st = Some c)
    (Hnet : forall before req, net w before req = Replied r)
    (H2xx : 200 <= status r < 300)
    (Hbody : response_data r = envelope_value e)
    (Hsuccess : isSuccessful e = true)
    (Hpayload : result e = alice) :
  dispatch toolRegistry "get-my-member-info" (JObj ClsObject fields) w st =
    (Normal (success_result (JStr alice_indented)),
     record (EvHttp (member_info_request c))
       (record (EvHandler "get-my-member-info" (JObj ClsObject [])) st))
  /\ text_of (success_result (JStr alice_indented)) = JStr alice_indented
  /\ has_property "isError" (success_result (JStr alice_indented)) = false
  /\ isError_of (success_result (JStr alice_indented)) = JUndefined.
Proof.
  split; [| repeat split].
  rewrite (dispatch_member_info fields c w st Hclient).
  unfold try_catch, Client.get, Client.instance_request.
  unfold bind at 1. unfold bind at 1. unfold try_catch.
  rewrite (request_replied _ _ _ _ _ (Hnet _ _)), (validate_default_2xx _ H2xx).
  assert (Hextract : Client.extractResult r = Normal alice).
  { destruct r as [code hs body]. simpl in Hbody. subst body.
    rewrite <- Hpayload.
    change (Client.extractResult (answer code hs (envelope_value e)) = Normal (result e)).
    rewrite extractResult_envelope, Hsuccess. reflexivity. }
  unfold lift. rewrite Hextract. unfold ret. rewrite stringify_alice. reflexivity.
Qed.

Lemma member_info_success_witness :
  let w := fixed_world (Replied alice_answer) EmptyString in
  dispatch toolRegistry "get-my-member-info" (JObj ClsObject []) w started =
    (Normal (success_result (JStr alice_indented)),
     record (EvHttp (member_info_request config0))
       (record (EvHandler "get-my-member-info" (JObj ClsObject [])) started)).
Proof.
  cbv zeta.
  apply (member_info_success config0 [] alice_envelope alice_answer
           (fixed_world (Replied alice_answer) EmptyString) started).
  - reflexivity.
  - intros before req. reflexivity.
  - simpl. lia.
  - reflexivity.
  - reflexivity.
  - reflexivity.
Defined.

Lemma formatError_plain (message : string) : formatError (new_Error message) = message.
Proof. reflexivity. Qed.

(** The last branch of the handler: one probe, then the error result that
    names whatever was read as the status. *)
Lemma upload_handler_unexpected_status (args : JsValue) (token out : string) (w : World)
    (st : State) :
  let filePath := to_string (get_opt args "filePath") in
  let apiUrl := upload_api_url w args in
  let step1Lines := Str.split (ascii_of_nat 10) (Str.trim out) in
  let httpCode := Str.index step1Lines (Z.of_nat (List.length step1Lines) - 2) in
  let redirectUrl := Str.index step1Lines (Z.of_nat (List.length step1Lines) - 1) in
  env w "DOORAY_API_TOKEN" = Some token ->
  token <> EmptyString ->
  existsSync w filePath = true ->
  shell w (trace st) (upload_command apiUrl token filePath true) = Stdout out ->
  is_string httpCode "307" && truthy redirectUrl = false ->
  is_string httpCode "200" || is_string httpCode "201" = false ->
  uploadAttachmentHandler args w st =
    (Normal (error_result ("Error: Unexpected HTTP status: " ++ to_string httpCode)),
     record (EvExec (upload_command apiUrl token filePath true)) st).
Proof.
  cbv zeta. intros Htoken Hnonempty Hexists Hprobe H307 H200.
  unfold uploadAttachmentHandler, try_catch, upload_attempt.
  unfold bind at 1. unfold ask. rewrite Htoken.
  destruct (String.eqb_spec token EmptyString) as [-> | _]; [contradiction |].
  rewrite Hexists. cbn [negb].
  unfold bind at 1. unfold execAsync at 1. rewrite Hprobe.
  rewrite H307, H200. unfold bind, throw, ret. rewrite formatError_plain. reflexivity.
Qed.

(** C3 at the curl based upload handler, when the API answers the first
    POST with 200 and no redirect: curl prints a line break, [200] and a
    line break; trimmed and split that is the single line [200], which the
    handler takes for the redirect URL while the status is [undefined].
    The body of the first response was discarded by the probe, and the
    handler returns an error result. *)
Theorem upload_handler_direct_success :
  let w := fixed_world (Replied alice_answer) (curl_probe_stdout "200" EmptyString) in
  Str.split (ascii_of_nat 10) (Str.trim (curl_probe_stdout "200" EmptyString)) = ["200"]
  /\ uploadAttachmentHandler upload_args w started =
       (Normal (error_result "Error: Unexpected HTTP status: undefined"),
        record
          (EvExec (upload_command
                     "https://api.dooray.com/project/v1/projects/1/posts/2/files"
                     "token" "/tmp/a.txt" true))
          started).
Proof. cbv zeta. split; vm_compute; reflexivity. Qed.

(** The branch of the handler for a status of 200 (lines 74 to 87 of
    upload-attachment.ts), when it is reached: the POST is issued a second
    time, to the same URL, and the handler answers from that second
    response. *)
Lemma upload_handler_posts_again (args : JsValue) (token out : string) (w : World)
    (st : State) :
  let filePath := to_string (get_opt args "filePath") in
  let apiUrl := upload_api_url w args in
  let step1Lines := Str.split (ascii_of_nat 10) (Str.trim out) in
  env w "DOORAY_API_TOKEN" = Some token ->
  token <> EmptyString ->
  existsSync w filePath = true ->
  shell w (trace st) (upload_command apiUrl token filePath true) = Stdout out ->
  Str.index step1Lines (Z.of_nat (List.length step1Lines) - 2) = JStr "200" ->
  trace (snd (uploadAttachmentHandler args w st)) =
    (trace st ++ [EvExec (upload_command apiUrl token filePath true);
                  EvExec (upload_command apiUrl token filePath false)])%list.
Proof.
  cbv zeta. intros Htoken Hnonempty Hexists Hprobe Hcode.
  unfold uploadAttachmentHandler, try_catch, upload_attempt.
  unfold bind at 1. unfold ask. rewrite Htoken.
  destruct (String.eqb_spec token EmptyString) as [-> | _]; [contradiction |].
  rewrite Hexists. cbn [negb].
  unfold bind at 1. unfold execAsync at 1. rewrite Hprobe.
  rewrite Hcode. cbn [is_string String.eqb Ascii.eqb Bool.eqb andb orb].
  unfold bind, execAsync, lift, ret, throw, record. cbn [trace].
  destruct (shell w _ (upload_command (upload_api_url w args) token _ false))
    as [body | message]; cbn [trace snd]; [| rewrite <- app_assoc; reflexivity].
  destruct (JSON_parse w body) as [response | e]; cbn [trace snd];
    [| rewrite <- app_assoc; reflexivity].
  destruct (upload_response_result response) as [result | e]; cbn [trace snd];
    [| rewrite <- app_assoc; reflexivity].
  destruct (get result "id") as [fileId | e]; cbn [trace snd];
    rewrite <- app_assoc; reflexivity.
Qed.

End DispatcherProofs.

(** * Further properties of the client *)

Module ClientExtras.
Import Js Fx Errors Client Wire Paged Outcome ClientProofs.

(** The message the response interceptor gives a rejected response:
    [data?.header?.resultMessage || data?.message || 'API request failed']. *)
Lemma interceptor_rejects {A} (r : Response) (w : World) (st : State) :
  status r <> 401 ->
  @response_error_interceptor A (Axios.status_error r) w st =
    (Throw (new_DoorayAPIError
              (to_string
                 (js_or (get_opt (get_opt (response_data r) "header") "resultMessage")
                    (js_or (get_opt (response_data r) "message")
                       (JStr "API request failed"))))
              (JNum (status r)) (response_data r)),
     st).
Proof.
  intros H401. unfold response_error_interceptor.
  change (get_opt (Axios.status_error r) "response") with (Axios.response_value r).
  cbn [truthy Axios.response_value].
  change (get_opt (Axios.response_value r) "status") with (JNum (status r)).
  change (get_opt (Axios.response_value r) "data") with (response_data r).
  destruct (status r) as [| p | p]; try reflexivity.
  repeat (destruct p as [p | p |]; try reflexivity).
  contradiction.
Qed.

(** The interceptor only ever throws: it leaves the state alone. *)
Lemma interceptor_state {A} (error : JsValue) (w : World) (st : State) :
  snd (@response_error_interceptor A error w st) = st.
Proof.
  unfold response_error_interceptor, throw.
  repeat case_match; reflexivity.
Qed.

Lemma instance_request_outcome (c : DoorayConfig) (m : Method) (path : string)
    (body query : JsValue) (hs : DoorayHeaders) (w : World) (st : State) :
  instance_request c m path body query hs w st =
    (instance_outcome (net w (trace st) (instance_config c m path body query hs)),
     record (EvHttp (instance_config c m path body query hs)) st).
Proof.
  unfold instance_request, try_catch, Axios.request, instance_outcome.
  destruct (net w (trace st) (instance_config c m path body query hs)) as [r | reason].
  - destruct (Axios.validate_default (status r)); [reflexivity |].
    destruct (Z.eqb_spec (status r) 401) as [H401 | H401].
    + unfold response_error_interceptor, Axios.status_error, Axios.new_AxiosError,
        Axios.response_value. simpl. rewrite H401. reflexivity.
    + apply interceptor_rejects. exact H401.
  - reflexivity.
Qed.

Lemma append_empty (s : string) : s ++ EmptyString = s.
Proof.
  induction s as [| a s IH]; [reflexivity |].
  change (String a (s ++ EmptyString) = String a s). rewrite IH. reflexivity.
Qed.

(** The six verbs differ in the request they make and agree on the rest. *)
Lemma verbs_run (c : DoorayConfig) (path : string) (body query : JsValue)
    (hs : DoorayHeaders) (w : World) (st : State) (reply : NetReply) :
  (forall req, net w (trace st) req = reply) ->
  let run (m : Method) (b q : JsValue) (h : DoorayHeaders)
          (extract : Response -> Completion JsValue) :=
    (match instance_outcome reply with
     | Normal r => extract r
     | Throw e => Throw e
     end,
     record (EvHttp (instance_config c m path b q h)) st) in
  Client.get c path query hs w st = run GET JUndefined query hs extractResult
  /\ Client.post c path body hs w st = run POST body JUndefined hs extractResult
  /\ Client.put c path body hs w st = run PUT body JUndefined hs extractResult
  /\ Client.patch c path body hs w st = run PATCH body JUndefined hs extractResult
  /\ Client.delete c path hs w st = run DELETE JUndefined JUndefined hs extractResult
  /\ Client.getPaginated c path query w st =
       run GET JUndefined query no_headers extractPaginatedResult.
Proof.
  intros Hnet. cbv zeta.
  repeat split;
    unfold Client.get, Client.post, Client.put, Client.patch, Client.delete,
      Client.getPaginated, bind, lift;
    rewrite instance_request_outcome, Hnet;
    destruct (instance_outcome reply); reflexivity.
Qed.



(** X2: when no response arrives, a call through one of the client's verbs
    fails with a [DoorayAPIError] whose message is "Network error: "
    followed by the reason and which has no status; [formatError] prints it
    without a status. *)
Theorem verb_network_failure (c : DoorayConfig) (path : string) (body query : JsValue)
    (hs : DoorayHeaders) (w : World) (st : State) (reason : string)
    (Hnet : forall req, net w (trace st) req = Unreachable reason) :
  let failure := new_DoorayAPIError ("Network error: " ++ reason) JUndefined JUndefined in
  fst (Client.get c path query hs w st) = Throw failure
  /\ fst (Client.post c path body hs w st) = Throw failure
  /\ fst (Client.put c path body hs w st) = Throw failure
  /\ fst (Client.patch c path body hs w st) = Throw failure
  /\ fst (Client.delete c path hs w st) = Throw failure
  /\ fst (Client.getPaginated c path query w st) = Throw failure
  /\ get_opt failure "statusCode" = JUndefined
  /\ formatError failure = "Dooray API Error: Network error: " ++ reason.
Proof.
  cbv zeta.
  pose proof (verbs_run c path body query hs w st (Unreachable reason) Hnet) as Hrun.
  cbv zeta in Hrun.
  destruct Hrun as (Hget & Hpost & Hput & Hpatch & Hdelete & Hpaged).
  rewrite Hget, Hpost, Hput, Hpatch, Hdelete, Hpaged.
  repeat split; try reflexivity.
  unfold formatError. cbn [instanceof_DoorayAPIError new_DoorayAPIError get_opt get assoc
                            String.eqb Ascii.eqb Bool.eqb default id truthy to_string
                            prim_to_string].
  rewrite append_empty. reflexivity.
Qed.

Lemma verb_network_failure_witness :
  let w := fixed_world (Unreachable "timeout of 30000ms exceeded") EmptyString in
  fst (Client.get config0 "/project/v1/projects" JUndefined no_headers w started) =
    Throw (new_DoorayAPIError "Network error: timeout of 30000ms exceeded"
             JUndefined JUndefined).
Proof.
  cbv zeta.
  pose proof (verb_network_failure config0 "/project/v1/projects" JUndefined JUndefined
                no_headers
                (fixed_world (Unreachable "timeout of 30000ms exceeded") EmptyString)
                started "timeout of 30000ms exceeded" (fun _ => eq_refl)) as H.
  cbv zeta in H. destruct H as (Hget & _). exact Hget.
Defined.

Lemma extractPaginatedResult_envelope (e : Envelope) (total : JsValue) (code : Z)
    (hs : gmap string string) :
  extractPaginatedResult (answer code hs (paginated_value e total)) =
    if isSuccessful e then Normal (page_of total (result e))
    else Throw (new_DoorayAPIError (failure_message e) (JNum code)
                  (paginated_value e total)).
Proof.
  destruct e as [[|] rc message payload]; [reflexivity |].
  unfold extractPaginatedResult, failure_message, js_or. simpl.
  destruct (String.eqb message EmptyString); reflexivity.
Qed.

Lemma outcome_2xx (r : Response) :
  200 <= status r < 300 -> instance_outcome (Replied r) = Normal r.
Proof.
  intros H2xx. unfold instance_outcome.
  replace (Axios.validate_default (status r)) with true; [reflexivity |].
  symmetry. unfold Axios.validate_default. apply andb_true_intro. split.
  - apply Z.leb_le. lia.
  - apply Z.ltb_lt. lia.
Qed.

(** X3: a call through [get], [post], [put], [patch] or [delete] that is
    answered by 2xx with an envelope returns the payload when the envelope
    is successful, and otherwise fails with a [DoorayAPIError] that carries
    the HTTP status, the body and the message of the envelope, or
    "API request failed" when that message is empty. *)
Theorem verb_unwraps_envelope (c : DoorayConfig) (path : string) (body query : JsValue)
    (hs : DoorayHeaders) (w : World) (st : State) (r : Response) (e : Envelope)
    (Hnet : forall req, net w (trace st) req = Replied r)
    (H2xx : 200 <= status r < 300)
    (Hbody : response_data r = envelope_value e) :
  let outcome :=
    if isSuccessful e then Normal (result e)
    else Throw (new_DoorayAPIError (failure_message e) (JNum (status r))
                  (envelope_value e)) in
  fst (Client.get c path query hs w st) = outcome
  /\ fst (Client.post c path body hs w st) = outcome
  /\ fst (Client.put c path body hs w st) = outcome
  /\ fst (Client.patch c path body hs w st) = outcome
  /\ fst (Client.delete c path hs w st) = outcome.
Proof.
  cbv zeta.
  pose proof (verbs_run c path body query hs w st (Replied r) Hnet) as Hrun.
  cbv zeta in Hrun. rewrite (outcome_2xx r H2xx) in Hrun.
  destruct Hrun as (Hget & Hpost & Hput & Hpatch & Hdelete & _).
  rewrite Hget, Hpost, Hput, Hpatch, Hdelete. cbn [fst].
  assert (Hextract : extractResult r =
                     if isSuccessful e then Normal (result e)
                     else Throw (new_DoorayAPIError (failure_message e) (JNum (status r))
                                   (envelope_value e))).
  { destruct r as [code rhs data]. simpl in Hbody. subst data.
    apply (extractResult_envelope e code rhs). }
  rewrite Hextract. repeat split.
Qed.

Lemma verb_unwraps_envelope_witness :
  let w := fixed_world (Replied alice_answer) EmptyString in
  fst (Client.get config0 "/common/v1/members/me" JUndefined no_headers w started) =
    Normal alice.
Proof.
  cbv zeta.
  pose proof (verb_unwraps_envelope config0 "/common/v1/members/me" JUndefined JUndefined
                no_headers (fixed_world (Replied alice_answer) EmptyString) started
                alice_answer alice_envelope (fun _ => eq_refl) ltac:(simpl; lia) eq_refl)
    as H.
  cbv zeta in H. destruct H as (Hget & _). exact Hget.
Defined.



(** X6: a 2xx response whose body is text (an empty body, a page of HTML)
    makes the verbs fail with the TypeError of reading [isSuccessful] of
    [undefined], which is no [DoorayAPIError]. *)
Theorem verb_text_body (c : DoorayConfig) (path : string) (body query : JsValue)
    (hs : DoorayHeaders) (w : World) (st : State) (r : Response) (text : string)
    (Hnet : forall req, net w (trace st) req = Replied r)
    (H2xx : 200 <= status r < 300)
    (Hbody : response_data r = JStr text) :
  let failure := cannot_read "undefined" "isSuccessful" in
  fst (Client.get c path query hs w st) = Throw failure
  /\ fst (Client.post c path body hs w st) = Throw failure
  /\ fst (Client.put c path body hs w st) = Throw failure
  /\ fst (Client.patch c path body hs w st) = Throw failure
  /\ fst (Client.delete c path hs w st) = Throw failure
  /\ fst (Client.getPaginated c path query w st) = Throw failure
  /\ instanceof_DoorayAPIError failure = false
  /\ formatError failure = "Cannot read properties of undefined (reading 'isSuccessful')".
Proof.
  cbv zeta.
  pose proof (verbs_run c path body query hs w st (Replied r) Hnet) as Hrun.
  cbv zeta in Hrun. rewrite (outcome_2xx r H2xx) in Hrun.
  destruct Hrun as (Hget & Hpost & Hput & Hpatch & Hdelete & Hpaged).
  rewrite Hget, Hpost, Hput, Hpatch, Hdelete, Hpaged. cbn [fst].
  unfold extractResult, extractPaginatedResult. rewrite Hbody.
  repeat split.
Qed.

Lemma verb_text_body_witness :
  let w := fixed_world (reply 204 ∅ (JStr EmptyString)) EmptyString in
  fst (Client.put config0 "/drive/v1/drives/1/files/2?media=meta" JNull no_headers w
         started) =
    Throw (cannot_read "undefined" "isSuccessful").
Proof.
  cbv zeta.
  pose proof (verb_text_body config0 "/drive/v1/drives/1/files/2?media=meta" JNull JNull
                no_headers (fixed_world (reply 204 ∅ (JStr EmptyString)) EmptyString)
                started (answer 204 ∅ (JStr EmptyString)) EmptyString
                (fun _ => eq_refl) ltac:(simpl; lia) eq_refl) as H.
  cbv zeta in H. destruct H as (_ & _ & Hput & _). exact Hput.
Defined.

Lemma digit_cases (d : N) :
  (d < 10)%N ->
  d = 0%N \/ d = 1%N \/ d = 2%N \/ d = 3%N \/ d = 4%N \/ d = 5%N \/ d = 6%N \/ d = 7%N
  \/ d = 8%N \/ d = 9%N.
Proof. lia. Qed.

Lemma digit_value_char (d : N) :
  (d < 10)%N -> Str.digit_value (pretty_N_char d) = Some (Z.of_N d).
Proof.
  intros Hd. destruct (digit_cases d Hd) as [-> | [-> | [-> | [-> | [-> | [-> | [-> | [-> | [-> | ->]]]]]]]]];
    reflexivity.
Qed.

Lemma parseInt_digit_head (d : N) (rest : string) :
  (d < 10)%N ->
  Str.parseInt (String (pretty_N_char d) rest) =
    match Str.digits None (String (pretty_N_char d) rest) with
    | Some n => JNum n
    | None => JNaN
    end.
Proof.
  intros Hd. destruct (digit_cases d Hd) as [-> | [-> | [-> | [-> | [-> | [-> | [-> | [-> | [-> | ->]]]]]]]]];
    reflexivity.
Qed.

(** Reading the digits [pretty_N_go] puts in front of [s]. *)
Lemma digits_pretty_go (x : N) :
  (0 < x)%N ->
  forall (s : string) (acc : option Z),
    (exists k : Z, 0 <= k /\
       Str.digits acc (pretty_N_go x s) =
         Str.digits (Some (default 0 acc * 10 ^ k + Z.of_N x)) s)
    /\ exists d rest, (d < 10)%N /\ pretty_N_go x s = String (pretty_N_char d) rest.
Proof.
  induction (N.lt_wf_0 x) as [x _ IH]. intros Hx s acc.
  rewrite (pretty_N_go_step x s Hx).
  assert (Hmod : (x `mod` 10 < 10)%N) by (apply N.mod_lt; lia).
  destruct (N.eq_dec (x `div` 10) 0) as [Hdiv | Hdiv].
  - rewrite Hdiv, pretty_N_go_0. split.
    + exists 1. split; [lia |].
      cbn [Str.digits]. rewrite (digit_value_char _ Hmod).
      f_equal. f_equal.
      pose proof (N.div_mod x 10 ltac:(lia)) as Hx10. rewrite Hdiv in Hx10.
      lia.
    + exists (x `mod` 10)%N, s. split; [exact Hmod | reflexivity].
  - assert (Hless : (x `div` 10 < x)%N) by (apply N.div_lt; lia).
    assert (Hpos : (0 < x `div` 10)%N) by (apply N.neq_0_lt_0; exact Hdiv).
    destruct (IH (x `div` 10)%N Hless Hpos
                (String (pretty_N_char (x `mod` 10)) s) acc)
      as [(k & Hk & Hdigits) Hhead].
    split; [| exact Hhead].
    exists (k + 1). split; [lia |].
    rewrite Hdigits. cbn [Str.digits]. rewrite (digit_value_char _ Hmod).
    cbn [default from_option id]. f_equal. f_equal.
    rewrite Z.pow_add_r by lia.
    pose proof (N.div_mod x 10 ltac:(lia)) as Hx10.
    assert (Z.of_N x = 10 * Z.of_N (x `div` 10) + Z.of_N (x `mod` 10)) by lia.
    lia.
Qed.

(** [parseInt] reads back what [pretty] printed. *)
Lemma parseInt_pretty (n : Z) : 0 <= n -> Str.parseInt (pretty n) = JNum n.
Proof.
  intros Hn. destruct n as [| p | p]; [reflexivity | | lia].
  change (pretty (Z.pos p)) with (pretty_N_go (N.pos p) EmptyString).
  destruct (digits_pretty_go (N.pos p) ltac:(lia) EmptyString None)
    as [(k & Hk & Hdigits) (d & rest & Hd & Hhead)].
  rewrite Hhead in *. rewrite (parseInt_digit_head d rest Hd), Hdigits.
  cbn [Str.digits default from_option id]. reflexivity.
Qed.

Lemma pretty_nonempty (n : Z) : 0 <= n -> truthy (JStr (pretty n)) = true.
Proof.
  intros Hn. destruct n as [| p | p]; [reflexivity | | lia].
  change (pretty (Z.pos p)) with (pretty_N_go (N.pos p) EmptyString).
  destruct (digits_pretty_go (N.pos p) ltac:(lia) EmptyString None)
    as [_ (d & rest & _ & Hhead)].
  rewrite Hhead. reflexivity.
Qed.

(** X7: the [contentLength] of a download is the number its
    [Content-Length] header spells in decimal, for lengths up to
    [Number.MAX_SAFE_INTEGER] (2^53 - 1), the range in which the number
    [parseInt] returns is exact. *)
Theorem content_length_round_trip (r : Response) (n : Z)
    (Hn : 0 <= n)
    (Hsafe : n <= 9007199254740991)
    (Hheader : response_headers r !! "content-length" = Some (pretty n)) :
  get_opt (download_result r) "contentLength" = JNum n.
Proof.
  unfold download_result.
  cbn [get_opt get assoc String.eqb Ascii.eqb Bool.eqb default from_option id].
  rewrite (header_present _ _ _ Hheader). unfold js_or.
  rewrite (pretty_nonempty n Hn). cbn [to_string prim_to_string default from_option id].
  apply parseInt_pretty. exact Hn.
Qed.

Lemma content_length_round_trip_witness :
  get_opt (download_result (answer 200 {["content-length" := "1048576"]} JNull))
    "contentLength" = JNum 1048576.
Proof.
  apply (content_length_round_trip
           (answer 200 {["content-length" := "1048576"]} JNull) 1048576).
  - lia.
  - lia.
  - vm_compute. reflexivity.
Defined.

(** X8: the client singleton.  [initializeClient] with a token makes
    [getClient] return that client, replacing an earlier one; with an empty
    token it fails with an [AuthenticationError] and the singleton stays as
    it was; [getClient] before any initialisation fails with an [Error]. *)
Theorem client_singleton (c : DoorayConfig) (w : World) (st : State) :
  (apiToken c <> EmptyString ->
   (let* _ := initializeClient c in getClient) w st =
     (Normal c, {| trace := trace st; clientInstance := Some c |}))
  /\ (apiToken c = EmptyString ->
      initializeClient c w st =
        (Throw (new_AuthenticationError
                  "DOORAY_API_TOKEN is required as environment variable"), st))
  /\ (clientInstance st = None ->
      getClient w st =
        (Throw (new_Error "Dooray client not initialized. Call initializeClient() first."),
         st)).
Proof.
  unfold bind, initializeClient, getClient, new_DoorayClient. repeat split.
  - intros Htoken.
    destruct (String.eqb_spec (apiToken c) EmptyString); [contradiction | reflexivity].
  - intros ->. reflexivity.
  - intros ->. reflexivity.
Qed.

Lemma client_singleton_witness :
  let w := fixed_world (Replied server_error) EmptyString in
  let fresh := {| trace := []; clientInstance := None |} in
  (let* _ := initializeClient config0 in getClient) w fresh = (Normal config0, started)
  /\ initializeClient {| apiToken := EmptyString; baseUrl := None |} w started =
       (Throw (new_AuthenticationError
                 "DOORAY_API_TOKEN is required as environment variable"), started)
  /\ getClient w fresh =
       (Throw (new_Error "Dooray client not initialized. Call initializeClient() first."),
        fresh).
Proof.
  cbv zeta. split; [| split].
  - apply (client_singleton config0 (fixed_world (Replied server_error) EmptyString)
             {| trace := []; clientInstance := None |}).
    discriminate.
  - apply (client_singleton {| apiToken := EmptyString; baseUrl := None |}
             (fixed_world (Replied server_error) EmptyString) started).
    reflexivity.
  - apply (client_singleton config0 (fixed_world (Replied server_error) EmptyString)
             {| trace := []; clientInstance := None |}).
    reflexivity.
Defined.

(** X9: a transfer calls the HTTP library once or twice, never more.  The
    first call goes to the URL of the transfer (as it is when it starts with
    "http", after the base URL otherwise) with redirects switched off, so it
    is one request.  There is a second call only when the first was answered
    by 307 with a [Location] that is not empty, and it goes to that
    [Location]; it leaves redirects to the library, so any further redirect
    is followed inside that call and is no call of the client. *)
Theorem transfer_calls_bounded (c : DoorayConfig) (path : string)
    (formData query : JsValue) (hs : DoorayHeaders) (w : World) (st : State) :
  let up := upload_initial c path formData hs in
  let down := download_initial c path query in
  (trace (snd (uploadFile c path formData hs w st)) = (trace st ++ [EvHttp up])%list
   \/ exists r L,
        net w (trace st) up = Replied r
        /\ status r = 307
        /\ response_headers r !! "location" = Some L
        /\ L <> EmptyString
        /\ trace (snd (uploadFile c path formData hs w st)) =
             (trace st ++ [EvHttp up; EvHttp (upload_followup c L formData hs)])%list)
  /\ (trace (snd (downloadFile c path query w st)) = (trace st ++ [EvHttp down])%list
      \/ exists r L,
           net w (trace st) down = Replied r
           /\ status r = 307
           /\ response_headers r !! "location" = Some L
           /\ L <> EmptyString
           /\ trace (snd (downloadFile c path query w st)) =
                (trace st ++ [EvHttp down; EvHttp (download_followup c L query)])%list)
  /\ maxRedirects up = Some 0 /\ maxRedirects down = Some 0
  /\ (forall L, url (upload_followup c L formData hs) = L
                /\ maxRedirects (upload_followup c L formData hs) = None
                /\ url (download_followup c L query) = L
                /\ maxRedirects (download_followup c L query) = None)
  /\ url up = (if String.prefix "http" path then path else base_url c ++ path)
  /\ url down = url up.
Proof.
  cbv zeta. split; [| split; [| repeat split]].
  - remember (uploadFile c path formData hs w st) as out eqn:Hout.
    unfold uploadFile, bind in Hout. unfold Axios.request at 1 in Hout.
    destruct (net w (trace st) (upload_initial c path formData hs)) as [r | reason]
      eqn:Hnet; [| left; subst out; reflexivity].
    destruct (validate_transfer (status r)); [| left; subst out; reflexivity].
    destruct (status r =? 307) eqn:H307; cbn [negb] in Hout;
      [| left; subst out; reflexivity].
    apply Z.eqb_eq in H307.
    unfold Axios.header in Hout.
    destruct (response_headers r !! "location") as [L |] eqn:Hlocation;
      [| left; subst out; reflexivity].
    destruct (String.eqb_spec L EmptyString) as [-> | HL];
      [left; subst out; reflexivity |].
    rewrite (truthy_nonempty _ HL) in Hout.
    cbn [negb to_string prim_to_string default from_option id] in Hout.
    right. exists r, L. repeat (split; [first [reflexivity | assumption] |]).
    unfold Axios.request, ret, record in Hout. cbn [trace] in Hout.
    destruct (net w (trace st ++ [EvHttp (upload_initial c path formData hs)])%list
                (upload_followup c L formData hs)) as [r2 | reason2];
      [destruct (Axios.validate_default (status r2)) |];
      subst out; cbn [snd trace]; rewrite <- app_assoc; reflexivity.
  - remember (downloadFile c path query w st) as out eqn:Hout.
    unfold downloadFile, bind in Hout. unfold Axios.request at 1 in Hout.
    destruct (net w (trace st) (download_initial c path query)) as [r | reason]
      eqn:Hnet; [| left; subst out; reflexivity].
    destruct (validate_transfer (status r)); [| left; subst out; reflexivity].
    destruct (status r =? 307) eqn:H307; cbn [negb] in Hout;
      [| left; subst out; reflexivity].
    apply Z.eqb_eq in H307.
    unfold Axios.header in Hout.
    destruct (response_headers r !! "location") as [L |] eqn:Hlocation;
      [| left; subst out; reflexivity].
    destruct (String.eqb_spec L EmptyString) as [-> | HL];
      [left; subst out; reflexivity |].
    rewrite (truthy_nonempty _ HL) in Hout.
    cbn [negb to_string prim_to_string default from_option id] in Hout.
    right. exists r, L. repeat (split; [first [reflexivity | assumption] |]).
    unfold Axios.request, ret, record in Hout. cbn [trace] in Hout.
    destruct (net w (trace st ++ [EvHttp (download_initial c path query)])%list
                (download_followup c L query)) as [r2 | reason2];
      [destruct (Axios.validate_default (status r2)) |];
      subst out; cbn [snd trace]; rewrite <- app_assoc; reflexivity.
Qed.

(** X10: a transfer whose first request is answered by 2xx ends there: an
    upload returns the body of that response, a download its bytes with the
    [Content-Type] (or "application/octet-stream" when there is none) and
    the [Content-Disposition] of that response, and a [contentLength] of 0
    when there is no [Content-Length]; no second request is made. *)
Theorem transfer_without_redirect (c : DoorayConfig) (path : string)
    (formData query : JsValue) (hs : DoorayHeaders) (w : World) (st : State)
    (r : Response)
    (H2xx : 200 <= status r < 300) :
  (net w (trace st) (upload_initial c path formData hs) = Replied r ->
   uploadFile c path formData hs w st =
     (Normal (response_data r), record (EvHttp (upload_initial c path formData hs)) st))
  /\ (net w (trace st) (download_initial c path query) = Replied r ->
      downloadFile c path query w st =
        (Normal (download_result r), record (EvHttp (download_initial c path query)) st))
  /\ get_opt (download_result r) "data" = response_data r
  /\ get_opt (download_result r) "contentDisposition" =
       Axios.header r "content-disposition"
  /\ (response_headers r !! "content-type" = None ->
      get_opt (download_result r) "contentType" = JStr "application/octet-stream")
  /\ (forall ty, ty <> EmptyString -> response_headers r !! "content-type" = Some ty ->
      get_opt (download_result r) "contentType" = JStr ty)
  /\ (response_headers r !! "content-length" = None ->
      get_opt (download_result r) "contentLength" = JNum 0).
Proof.
  split; [| split; [| repeat split]].
  - intros Hnet. apply (uploadFile_direct _ _ _ _ _ _ _ Hnet H2xx).
  - intros Hnet. apply (downloadFile_direct _ _ _ _ _ _ Hnet H2xx).
  - intros Habsent. unfold download_result.
    cbn [get_opt get assoc String.eqb Ascii.eqb Bool.eqb default from_option id].
    rewrite (header_absent _ _ Habsent). reflexivity.
  - intros ty Hty Hpresent. unfold download_result.
    cbn [get_opt get assoc String.eqb Ascii.eqb Bool.eqb default from_option id].
    rewrite (header_present _ _ _ Hpresent). unfold js_or.
    rewrite (truthy_nonempty _ Hty). reflexivity.
  - intros Habsent. unfold download_result.
    cbn [get_opt get assoc String.eqb Ascii.eqb Bool.eqb default from_option id].
    rewrite (header_absent _ _ Habsent). reflexivity.
Qed.

Lemma transfer_without_redirect_witness :
  let w := fixed_world (Replied alice_answer) EmptyString in
  uploadFile config0 "/files" JNull no_headers w started =
    (Normal (envelope_value alice_envelope),
     record (EvHttp (upload_initial config0 "/files" JNull no_headers)) started)
  /\ get_opt (download_result alice_answer) "contentLength" = JNum 0.
Proof.
  cbv zeta.
  pose proof (transfer_without_redirect config0 "/files" JNull JNull no_headers
                (fixed_world (Replied alice_answer) EmptyString) started alice_answer
                ltac:(simpl; lia)) as (Hup & _ & _ & _ & _ & _ & Hlength).
  split; [apply Hup; reflexivity | apply Hlength; vm_compute; reflexivity].
Defined.

End ClientExtras.

(** * Further properties of the dispatcher and the handlers *)

Module DispatcherExtras.
Import Js Fx Errors Tool Handlers Dispatcher Wire Fixtures ClientProofs DispatcherProofs.

(** X11: a name that the registry does not hold but every object inherits
    ("toString", "constructor", ...) is not reported as an unknown tool: the
    dispatcher finds the inherited property, fails to read its schema and
    answers with the text of that TypeError.  No handler runs. *)
Theorem inherited_name (registry : gmap string Tool) (name : string) (args : JsValue)
    (w : World) (st : State)
    (Hnot_own : registry !! name = None)
    (Hinherited : In name object_prototype_keys) :
  dispatch registry name args w st =
    (Normal (error_result "Error: Cannot read properties of undefined (reading 'parse')"),
     st).
Proof.
  unfold dispatch, registry_get. rewrite Hnot_own.
  replace (existsb (String.eqb name) object_prototype_keys) with true.
  - reflexivity.
  - symmetry. apply existsb_exists. exists name. split; [exact Hinherited |].
    apply String.eqb_refl.
Qed.

Lemma inherited_name_witness :
  let w := fixed_world (Replied server_error) EmptyString in
  dispatch toolRegistry "toString" (JObj ClsObject []) w started =
    (Normal (error_result "Error: Cannot read properties of undefined (reading 'parse')"),
     started).
Proof.
  cbv zeta.
  apply (inherited_name toolRegistry "toString" (JObj ClsObject [])
           (fixed_world (Replied server_error) EmptyString) started).
  - vm_compute. reflexivity.
  - simpl. tauto.
Defined.

(** X12: when the arguments pass the schema, the handler is invoked once,
    with the parsed arguments and not the raw ones, and what it returns is
    the answer of the dispatcher, unchanged. *)
Theorem handler_result_unchanged (registry : gmap string Tool) (name : string)
    (tool : Tool) (args validated result : JsValue) (w : World) (st st' : State)
    (Hregistered : registry !! name = Some tool)
    (Hvalid : schema tool (js_or args (JObj ClsObject [])) = Parsed validated)
    (Hhandler : handler tool validated w (record (EvHandler name validated) st) =
                  (Normal result, st')) :
  dispatch registry name args w st = (Normal result, st').
Proof.
  unfold dispatch, registry_get. rewrite Hregistered.
  unfold try_catch, bind, lift, parse, call_handler. rewrite Hvalid, Hhandler.
  reflexivity.
Qed.

Lemma handler_result_unchanged_witness :
  let w := fixed_world (Replied alice_answer) EmptyString in
  dispatch toolRegistry "get-my-member-info" (JObj ClsObject [("verbose", JBool true)]) w
    started =
    (Normal (success_result (JStr alice_indented)),
     record (EvHttp (member_info_request config0))
       (record (EvHandler "get-my-member-info" (JObj ClsObject [])) started)).
Proof.
  cbv zeta.
  apply (handler_result_unchanged toolRegistry "get-my-member-info"
           {| handler := getMyMemberInfoHandler; schema := getMyMemberInfoSchema |}
           (JObj ClsObject [("verbose", JBool true)]) (JObj ClsObject [])).
  - apply toolRegistry_member_info.
  - reflexivity.
  - vm_compute. reflexivity.
Defined.

(** X13: when the handler throws a value that has no [errors] property, the
    dispatcher answers with an error result whose text is "Error: " and the
    message of the error, or the value as a string when it is no [Error]. *)
Theorem handler_exception_text (registry : gmap string Tool) (name : string)
    (tool : Tool) (args validated e : JsValue) (w : World) (st st' : State)
    (Hregistered : registry !! name = Some tool)
    (Hvalid : schema tool (js_or args (JObj ClsObject [])) = Parsed validated)
    (Hhandler : handler tool validated w (record (EvHandler name validated) st) =
                  (Throw e, st'))
    (Hplain : has_property "errors" e = false) :
  dispatch registry name args w st =
    (Normal (error_result
               ("Error: " ++ (if instanceof_Error e
                              then to_string (get_opt e "message")
                              else to_string e))),
     st').
Proof.
  unfold dispatch, registry_get. rewrite Hregistered.
  unfold try_catch, bind, lift, parse, call_handler. rewrite Hvalid, Hhandler.
  apply on_error_plain. exact Hplain.
Qed.

Lemma handler_exception_text_witness :
  let w := fixed_world (Replied server_error) EmptyString in
  dispatch (<["boom" := throwing_tool (new_Error "disk full")]> toolRegistry) "boom"
    JUndefined w started =
    (Normal (error_result "Error: disk full"),
     record (EvHandler "boom" (JObj ClsObject [])) started)
  /\ dispatch (<["boom" := throwing_tool (JStr "stop")]> toolRegistry) "boom"
       JUndefined w started =
     (Normal (error_result "Error: stop"),
      record (EvHandler "boom" (JObj ClsObject [])) started).
Proof.
  cbv zeta. split.
  - apply (handler_exception_text (<["boom" := throwing_tool (new_Error "disk full")]>
                                     toolRegistry)
             "boom" (throwing_tool (new_Error "disk full")) JUndefined (JObj ClsObject [])
             (new_Error "disk full")).
    + apply lookup_insert_eq.
    + reflexivity.
    + reflexivity.
    + reflexivity.
  - apply (handler_exception_text (<["boom" := throwing_tool (JStr "stop")]> toolRegistry)
             "boom" (throwing_tool (JStr "stop")) JUndefined (JObj ClsObject [])
             (JStr "stop")).
    + apply lookup_insert_eq.
    + reflexivity.
    + reflexivity.
    + reflexivity.
Defined.

Lemma uploaded_text_is_string (fileId : JsValue) (fileName : string) :
  exists text, uploaded_text fileId fileName = JStr text.
Proof.
  unfold uploaded_text, Json.stringify2.
  destruct (Json.stringify_at "  " EmptyString
              (JObj ClsObject
                 [("success", JBool true); ("fileId", fileId); ("fileName", JStr fileName);
                  ("message",
                    JStr ("File " ++ dquote ++ fileName ++ dquote
                          ++ " successfully uploaded to task."))])) as [text |] eqn:H.
  - exists text. reflexivity.
  - exfalso. cbn [Json.stringify_at Json.enumerable] in H.
    destruct (Json.stringify_at "  " (EmptyString ++ "  ") fileId); discriminate H.
Qed.

(** What the [try] block of the upload handler returns when it returns. *)
Lemma upload_attempt_returns (args v : JsValue) (w : World) (st st' : State) :
  upload_attempt args w st = (Normal v, st') ->
  exists fileId,
    v = success_result
          (uploaded_text fileId (basename w (to_string (get_opt args "filePath")))).
Proof.
  unfold upload_attempt, bind, ask, execAsync, lift, ret, throw.
  intros H.
  repeat match type of H with
         | context [match ?x with _ => _ end] =>
             lazymatch x with
             | context [match _ with _ => _ end] => fail
             | _ => destruct x eqn:?
             end
         | context [if ?x then _ else _] =>
             lazymatch x with
             | context [if _ then _ else _] => fail
             | context [match _ with _ => _ end] => fail
             | _ => destruct x eqn:?
             end
         end; try discriminate H;
    injection H as <- _; eexists; reflexivity.
Qed.





(** X15: before the client is initialised, [get-my-member-info] answers
    with the error result that says so, and no request is made. *)
Theorem member_info_uninitialised (fields : list (string * JsValue)) (w : World)
    (st : State)
    (Hclient : clientInstance st = None) :
  dispatch toolRegistry "get-my-member-info" (JObj ClsObject fields) w st =
    (Normal (error_result
               "Error: Dooray client not initialized. Call initializeClient() first."),
     record (EvHandler "get-my-member-info" (JObj ClsObject [])) st).
Proof.
  unfold dispatch, registry_get. rewrite toolRegistry_member_info.
  match goal with
  | |- _ = ?rhs =>
      change (try_catch
                (call_handler "get-my-member-info"
                   {| handler := getMyMemberInfoHandler; schema := getMyMemberInfoSchema |}
                   (JObj ClsObject []))
                on_error w st = rhs)
  end.
  unfold call_handler, getMyMemberInfoHandler, getMyMemberInfo, Client.getClient.
  unfold try_catch, bind, ret. cbn [handler clientInstance record]. rewrite Hclient.
  reflexivity.
Qed.

Lemma member_info_uninitialised_witness :
  let w := fixed_world (Replied alice_answer) EmptyString in
  let fresh := {| trace := []; clientInstance := None |} in
  dispatch toolRegistry "get-my-member-info" (JObj ClsObject []) w fresh =
    (Normal (error_result
               "Error: Dooray client not initialized. Call initializeClient() first."),
     record (EvHandler "get-my-member-info" (JObj ClsObject [])) fresh).
Proof.
  cbv zeta.
  apply (member_info_uninitialised [] (fixed_world (Replied alice_answer) EmptyString)
           {| trace := []; clientInstance := None |}).
  reflexivity.
Defined.

(** X16: when the API answers [get-my-member-info] with 2xx and an
    unsuccessful envelope, the tool answers with an error result made of
    "Error: Dooray API Error: ", the message of the envelope and the HTTP
    status in brackets. *)
Theorem member_info_failed_envelope (c : DoorayConfig) (fields : list (string * JsValue))
    (e : Envelope) (r : Response) (w : World) (st : State)
    (Hclient : clientInstance st = Some c)
    (Hnet : forall before req, net w before req = Replied r)
    (H2xx : 200 <= status r < 300)
    (Hbody : response_data r = envelope_value e)
    (Hfailed : isSuccessful e = false)
    (Hmessage : resultMessage e <> EmptyString) :
  dispatch toolRegistry "get-my-member-info" (JObj ClsObject fields) w st =
    (Normal (error_result
               ("Error: Dooray API Error: " ++ resultMessage e
                ++ " (Status: " ++ pretty (status r) ++ ")")),
     record (EvHttp (member_info_request c))
       (record (EvHandler "get-my-member-info" (JObj ClsObject [])) st)).
Proof.
  rewrite (dispatch_member_info fields c w st Hclient).
  unfold try_catch, Client.get, Client.instance_request.
  unfold bind at 1. unfold bind at 1. unfold try_catch.
  rewrite (request_replied _ _ _ _ _ (Hnet _ _)), (validate_default_2xx _ H2xx).
  assert (Hextract : Client.extractResult r =
                     Throw (new_DoorayAPIError (resultMessage e) (JNum (status r))
                              (envelope_value e))).
  { destruct r as [code hs body]. simpl in Hbody. subst body.
    pose proof (extractResult_envelope e code hs) as He. unfold answer in He.
    rewrite He, Hfailed.
    destruct (String.eqb_spec (resultMessage e) EmptyString); [contradiction | reflexivity]. }
  unfold lift. rewrite Hextract. unfold ret, formatError.
  cbn [instanceof_DoorayAPIError new_DoorayAPIError get_opt get assoc String.eqb Ascii.eqb
         Bool.eqb default from_option id to_string prim_to_string truthy].
  replace (status r =? 0) with false by (symmetry; apply Z.eqb_neq; lia).
  reflexivity.
Qed.

Lemma member_info_failed_envelope_witness :
  let e := {| isSuccessful := false; resultCode := -1; resultMessage := "no such member";
              result := JNull |} in
  let w := fixed_world (reply 200 ∅ (envelope_value e)) EmptyString in
  dispatch toolRegistry "get-my-member-info" (JObj ClsObject []) w started =
    (Normal (error_result "Error: Dooray API Error: no such member (Status: 200)"),
     record (EvHttp (member_info_request config0))
       (record (EvHandler "get-my-member-info" (JObj ClsObject [])) started)).
Proof.
  cbv zeta.
  apply (member_info_failed_envelope config0 []
           {| isSuccessful := false; resultCode := -1; resultMessage := "no such member";
              result := JNull |}
           (answer 200 ∅
              (envelope_value
                 {| isSuccessful := false; resultCode := -1;
                    resultMessage := "no such member"; result := JNull |}))).
  - reflexivity.
  - intros before req. reflexivity.
  - simpl. lia.
  - reflexivity.
  - reflexivity.
  - discriminate.
Defined.

(** X17: on arguments that are an object the upload handler never raises,
    and what it returns is a well-formed result of one of two kinds: the
    success text with the base name of the file and no [isError], or a text
    that starts with "Error: " together with [isError: true]. *)
Theorem upload_never_raises (args : JsValue) (w : World) (st : State)
    (Hdefined : args <> JUndefined)
    (Hnonnull : args <> JNull) :
  let fileName := basename w (to_string (get_opt args "filePath")) in
  exists v st',
    uploadAttachmentHandler args w st = (Normal v, st')
    /\ well_formed v = true
    /\ ((exists fileId,
           text_of v = uploaded_text fileId fileName
           /\ has_property "isError" v = false)
        \/ (exists message,
              text_of v = JStr ("Error: " ++ message)
              /\ isError_of v = JBool true)).
Proof.
  cbv zeta. unfold uploadAttachmentHandler, try_catch, ret.
  destruct (upload_attempt args w st) as [[v | e] st'] eqn:Hrun.
  - exists v, st'. split; [reflexivity |].
    destruct (upload_attempt_returns _ _ _ _ _ Hrun) as (fileId & ->).
    split.
    + destruct (uploaded_text_is_string fileId
                  (basename w (to_string (get_opt args "filePath")))) as (text & ->).
      reflexivity.
    + left. exists fileId. split; reflexivity.
  - eexists _, _. split; [reflexivity |]. split; [reflexivity |].
    right. exists (formatError e). split; reflexivity.
Qed.

Lemma upload_never_raises_witness :
  let w := fixed_world (Replied server_error) (curl_probe_stdout "200" EmptyString) in
  exists v st',
    uploadAttachmentHandler upload_args w started = (Normal v, st')
    /\ well_formed v = true
    /\ ((exists fileId,
           text_of v = uploaded_text fileId "/tmp/a.txt"
           /\ has_property "isError" v = false)
        \/ (exists message,
              text_of v = JStr ("Error: " ++ message)
              /\ isError_of v = JBool true)).
Proof.
  cbv zeta.
  apply (upload_never_raises upload_args
           (fixed_world (Replied server_error) (curl_probe_stdout "200" EmptyString))
           started); discriminate.
Defined.

(** X18: the upload handler checks the token and the file before it runs
    anything: without [DOORAY_API_TOKEN] (unset or empty) it answers
    "Error: DOORAY_API_TOKEN environment variable is required", and with a
    token, arguments that are an object and no file at [filePath] it answers
    "Error: File not found: " and the path; in both cases no command is
    run. *)
Theorem upload_preconditions (args : JsValue) (w : World) (st : State) :
  let filePath := to_string (get_opt args "filePath") in
  (env w "DOORAY_API_TOKEN" = None \/ env w "DOORAY_API_TOKEN" = Some EmptyString ->
   uploadAttachmentHandler args w st =
     (Normal (error_result "Error: DOORAY_API_TOKEN environment variable is required"),
      st))
  /\ (forall token,
        args <> JUndefined -> args <> JNull ->
        env w "DOORAY_API_TOKEN" = Some token -> token <> EmptyString ->
        existsSync w filePath = false ->
        uploadAttachmentHandler args w st =
          (Normal (error_result ("Error: File not found: " ++ filePath)), st)).
Proof.
  cbv zeta. split.
  - intros [Htoken | Htoken];
      unfold uploadAttachmentHandler, try_catch, upload_attempt, bind, ask;
      rewrite Htoken; reflexivity.
  - intros token _ _ Htoken Hnonempty Hmissing.
    unfold uploadAttachmentHandler, try_catch, upload_attempt, bind, ask.
    rewrite Htoken.
    destruct (String.eqb_spec token EmptyString) as [-> | _]; [contradiction |].
    rewrite Hmissing. cbn [negb]. unfold throw, ret. rewrite formatError_plain.
    reflexivity.
Qed.

Lemma upload_preconditions_witness :
  let unset :=
    {| net := fun _ _ => Replied server_error;
       shell := fun _ _ => Stdout EmptyString;
       existsSync := fun _ => true;
       env := fun _ => None;
       JSON_parse := fun _ => Normal JNull;
       basename := fun p => p |} in
  let absent :=
    {| net := fun _ _ => Replied server_error;
       shell := fun _ _ => Stdout EmptyString;
       existsSync := fun _ => false;
       env := fun _ => Some "token";
       JSON_parse := fun _ => Normal JNull;
       basename := fun p => p |} in
  uploadAttachmentHandler upload_args unset started =
    (Normal (error_result "Error: DOORAY_API_TOKEN environment variable is required"),
     started)
  /\ uploadAttachmentHandler upload_args absent started =
       (Normal (error_result "Error: File not found: /tmp/a.txt"), started).
Proof.
  cbv zeta. split.
  - apply upload_preconditions. left. reflexivity.
  - apply (upload_preconditions upload_args _ started) with (token := "token").
    + discriminate.
    + discriminate.
    + reflexivity.
    + discriminate.
    + reflexivity.
Defined.



End DispatcherExtras.

(** * Properties of the drive and project endpoints *)

Module ApiExtras.
Import Js Fx Errors Tool Wire Paged Outcome Api Members DriveHandlers ClientProofs
  ClientExtras DispatcherProofs.

Lemma getClient_none (w : World) (st : State) :
  clientInstance st = None ->
  Client.getClient w st =
    (Throw (new_Error "Dooray client not initialized. Call initializeClient() first."), st).
Proof. intros H. unfold Client.getClient. rewrite H. reflexivity. Qed.

Lemma getClient_some (c : DoorayConfig) (w : World) (st : State) :
  clientInstance st = Some c -> Client.getClient w st = (Normal c, st).
Proof. intros H. unfold Client.getClient. rewrite H. reflexivity. Qed.

(** X21: the thirteen endpoints embedded here (the nine of api/drive.ts,
    and [getProjects], [getProjectMemberGroups], [downloadTaskAttachment]
    and [deleteTaskAttachment] of api/projects.ts) ask for the client before
    they look at their arguments: while the client is not initialised each
    of them fails with the error of [getClient], whatever the arguments
    (missing ones included), and sends nothing. *)
Theorem endpoints_need_client (params : JsValue) (driveId fileId projectId taskId : string)
    (w : World) (st : State)
    (Hnone : clientInstance st = None) :
  let failure :=
    (Throw (new_Error "Dooray client not initialized. Call initializeClient() first."),
     st) in
  getDrives params w st = failure
  /\ getDriveFiles params w st = failure
  /\ getDriveFileMeta fileId w st = failure
  /\ createDriveFolder params w st = failure
  /\ renameDriveFile params w st = failure
  /\ moveDriveFile params w st = failure
  /\ copyDriveFile params w st = failure
  /\ deleteDriveFile driveId fileId w st = failure
  /\ downloadDriveFile driveId fileId w st = failure
  /\ downloadTaskAttachment projectId taskId fileId w st = failure
  /\ deleteTaskAttachment projectId taskId fileId w st = failure
  /\ getProjects params w st = failure
  /\ getProjectMemberGroups params w st = failure.
Proof.
  cbv zeta.
  repeat split;
    (eapply bind_throw; apply getClient_none; exact Hnone).
Qed.

Lemma endpoints_need_client_witness :
  let st := {| trace := []; clientInstance := None |} in
  getDriveFiles JUndefined (fixed_world (Replied server_error) EmptyString) st =
    (Throw (new_Error "Dooray client not initialized. Call initializeClient() first."),
     st).
Proof.
  cbv zeta.
  exact (proj1 (proj2 (endpoints_need_client JUndefined EmptyString EmptyString EmptyString
                         EmptyString (fixed_world (Replied server_error) EmptyString)
                         {| trace := []; clientInstance := None |} eq_refl))).
Defined.

Lemma bind_normal {A B} (m : M A) (k : A -> M B) (w : World) (st st' : State) (a : A) :
  m w st = (Normal a, st') -> (let* x := m in k x) w st = k a w st'.
Proof. intros H. unfold bind. rewrite H. reflexivity. Qed.

Lemma api_path_is_relative (c : DoorayConfig) (rest : string) :
  Client.full_url c ("/" ++ rest) = Client.base_url c ++ "/" ++ rest.
Proof. reflexivity. Qed.

(** X22: the two download endpoints.  Each sends a GET to the base URL
    followed by its path (the path is never taken for an absolute URL), with
    the query [media=raw], the [Authorization] header, redirects disabled
    and a binary response type; on a 2xx answer it returns the object the
    client builds from that answer. *)
Theorem download_endpoints (c : DoorayConfig) (driveId fileId projectId taskId : string)
    (w : World) (st : State) (r : Response)
    (Hclient : clientInstance st = Some c)
    (Hnet : forall req, net w (trace st) req = Replied r)
    (H2xx : 200 <= status r < 300) :
  let drive := Client.download_initial c (drive_file_path driveId fileId) raw_media in
  let task :=
    Client.download_initial c (task_file_path projectId taskId fileId) raw_media in
  downloadDriveFile driveId fileId w st =
    (Normal (Client.download_result r), record (EvHttp drive) st)
  /\ downloadTaskAttachment projectId taskId fileId w st =
       (Normal (Client.download_result r), record (EvHttp task) st)
  /\ url drive =
       Client.base_url c ++ "/drive/v1/drives/" ++ driveId ++ "/files/" ++ fileId
  /\ url task =
       Client.base_url c ++ "/project/v1/projects/" ++ projectId ++ "/posts/" ++ taskId
       ++ "/files/" ++ fileId
  /\ (forall req, req = drive \/ req = task ->
        method req = GET
        /\ params req = JObj ClsObject [("media", JStr "raw")]
        /\ headers req !! "Authorization" = Some ("dooray-api " ++ apiToken c)
        /\ maxRedirects req = Some 0
        /\ responseType req = AsArrayBuffer).
Proof.
  cbv zeta. split; [| split; [| split; [| split]]].
  - unfold downloadDriveFile.
    rewrite (bind_normal _ _ _ _ _ _ (getClient_some c w st Hclient)).
    apply downloadFile_direct; [apply Hnet | exact H2xx].
  - unfold downloadTaskAttachment.
    rewrite (bind_normal _ _ _ _ _ _ (getClient_some c w st Hclient)).
    apply downloadFile_direct; [apply Hnet | exact H2xx].
  - reflexivity.
  - reflexivity.
  - intros req [-> | ->]; repeat split; apply lookup_singleton_eq.
Qed.

Lemma download_endpoints_witness :
  let w := fixed_world (Replied alice_answer) EmptyString in
  downloadDriveFile "d1" "f1" w started =
    (Normal (Client.download_result alice_answer),
     record (EvHttp (Client.download_initial config0 (drive_file_path "d1" "f1") raw_media))
       started).
Proof.
  cbv zeta.
  refine (proj1 (download_endpoints config0 "d1" "f1" EmptyString EmptyString
                   (fixed_world (Replied alice_answer) EmptyString) started alice_answer
                   eq_refl (fun _ => eq_refl) _)).
  simpl. lia.
Defined.

Lemma assoc_set_property (k k' : string) (v : JsValue) (q : list (string * JsValue)) :
  assoc k (set_property k' v q) = if String.eqb k k' then Some v else assoc k q.
Proof.
  induction q as [| [k0 v0] q IH]; simpl.
  - reflexivity.
  - destruct (String.eqb_spec k' k0) as [-> | Hne]; simpl.
    + destruct (String.eqb k k0); reflexivity.
    + rewrite IH. destruct (String.eqb_spec k k0) as [-> | Hk]; [| reflexivity].
      destruct (String.eqb_spec k0 k'); [congruence | reflexivity].
Qed.

Lemma assoc_set_if_defined (k k' : string) (v : JsValue) (q : list (string * JsValue)) :
  assoc k (set_if_defined k' v q) =
    if String.eqb k k'
    then match v with JUndefined => assoc k q | _ => Some v end
    else assoc k q.
Proof.
  unfold set_if_defined.
  destruct v; rewrite ?assoc_set_property; destruct (String.eqb k k'); reflexivity.
Qed.

Lemma assoc_set_if_truthy (k k' : string) (v : JsValue) (q : list (string * JsValue)) :
  assoc k (set_if_truthy k' v q) =
    if String.eqb k k' then (if truthy v then Some v else assoc k q) else assoc k q.
Proof.
  unfold set_if_truthy.
  destruct (truthy v); rewrite ?assoc_set_property; destruct (String.eqb k k'); reflexivity.
Qed.

(** What the query of [getDriveFiles] holds under a key. *)
Lemma drive_files_query_assoc (params : JsValue) (k : string) :
  exists fields,
    drive_files_query params = JObj ClsObject fields
    /\ assoc k fields =
         if String.eqb k "size"
         then match get_opt params "size" with
              | JUndefined => None
              | _ => Some (get_opt params "size")
              end
         else if String.eqb k "page"
         then match get_opt params "page" with
              | JUndefined => None
              | _ => Some (get_opt params "page")
              end
         else if String.eqb k "subTypes"
         then (if truthy (get_opt params "subTypes")
               then Some (get_opt params "subTypes") else None)
         else if String.eqb k "type"
         then (if truthy (get_opt params "type") then Some (get_opt params "type") else None)
         else if String.eqb k "parentId"
         then (if truthy (get_opt params "parentId")
               then Some (get_opt params "parentId") else None)
         else None.
Proof.
  eexists. split; [reflexivity |].
  rewrite assoc_set_if_defined.
  destruct (String.eqb_spec k "size") as [-> | Hsize].
  { rewrite assoc_set_if_defined. cbn [String.eqb Ascii.eqb Bool.eqb].
    rewrite !assoc_set_if_truthy. cbn [String.eqb Ascii.eqb Bool.eqb assoc]. reflexivity. }
  rewrite assoc_set_if_defined.
  destruct (String.eqb_spec k "page") as [-> | Hpage].
  { rewrite !assoc_set_if_truthy. cbn [String.eqb Ascii.eqb Bool.eqb assoc]. reflexivity. }
  rewrite assoc_set_if_truthy.
  destruct (String.eqb_spec k "subTypes") as [-> | Hsub].
  { rewrite !assoc_set_if_truthy. cbn [String.eqb Ascii.eqb Bool.eqb assoc]. reflexivity. }
  rewrite assoc_set_if_truthy.
  destruct (String.eqb_spec k "type") as [-> | Htype].
  { rewrite !assoc_set_if_truthy. cbn [String.eqb Ascii.eqb Bool.eqb assoc]. reflexivity. }
  rewrite assoc_set_if_truthy.
  destruct (String.eqb_spec k "parentId") as [-> | Hparent]; reflexivity.
Qed.

(** X23: the query of [getDriveFiles].  [page] and [size] go out exactly as
    given, a zero included, and are absent only when not given; [parentId],
    [type] and [subTypes] go out when truthy and are absent otherwise (an
    empty string is dropped); the query has no other key. *)
Theorem drive_files_query_keys (params : JsValue) :
  let q := drive_files_query params in
  let given k := get_opt params k in
  get_opt q "page" = given "page"
  /\ get_opt q "size" = given "size"
  /\ (has_property "page" q = false <-> given "page" = JUndefined)
  /\ (has_property "size" q = false <-> given "size" = JUndefined)
  /\ (forall k, k = "parentId" \/ k = "type" \/ k = "subTypes" ->
        has_property k q = truthy (given k)
        /\ get_opt q k = if truthy (given k) then given k else JUndefined)
  /\ (forall k, has_property k q = true ->
        k = "parentId" \/ k = "type" \/ k = "subTypes" \/ k = "page" \/ k = "size").
Proof.
  cbv zeta.
  split; [| split; [| split; [| split; [| split]]]].
  - destruct (drive_files_query_assoc params "page") as (fs & -> & Hfs).
    cbn [get_opt get]. rewrite Hfs. cbn [String.eqb Ascii.eqb Bool.eqb].
    destruct (get_opt params "page"); reflexivity.
  - destruct (drive_files_query_assoc params "size") as (fs & -> & Hfs).
    cbn [get_opt get]. rewrite Hfs. cbn [String.eqb Ascii.eqb Bool.eqb].
    destruct (get_opt params "size"); reflexivity.
  - destruct (drive_files_query_assoc params "page") as (fs & -> & Hfs).
    cbn [has_property]. rewrite Hfs. cbn [String.eqb Ascii.eqb Bool.eqb].
    destruct (get_opt params "page"); split; intros H; try reflexivity; discriminate.
  - destruct (drive_files_query_assoc params "size") as (fs & -> & Hfs).
    cbn [has_property]. rewrite Hfs. cbn [String.eqb Ascii.eqb Bool.eqb].
    destruct (get_opt params "size"); split; intros H; try reflexivity; discriminate.
  - intros k Hk.
    destruct (drive_files_query_assoc params k) as (fs & -> & Hfs).
    cbn [has_property get_opt get]. rewrite Hfs.
    destruct Hk as [-> | [-> | ->]]; cbn [String.eqb Ascii.eqb Bool.eqb];
      match goal with |- context [truthy ?v] => destruct (truthy v) end;
      split; reflexivity.
  - intros k.
    destruct (drive_files_query_assoc params k) as (fs & -> & Hfs).
    cbn [has_property]. rewrite Hfs.
    destruct (String.eqb_spec k "size"); [tauto |].
    destruct (String.eqb_spec k "page"); [tauto |].
    destruct (String.eqb_spec k "subTypes"); [tauto |].
    destruct (String.eqb_spec k "type"); [tauto |].
    destruct (String.eqb_spec k "parentId"); [tauto |].
    discriminate.
Qed.

Lemma drive_files_query_keys_witness :
  let filter :=
    JObj ClsObject
      [("driveId", JStr "d1"); ("parentId", JStr EmptyString); ("page", JNum 0)] in
  get_opt (drive_files_query filter) "page" = JNum 0
  /\ has_property "parentId" (drive_files_query filter) = false.
Proof.
  cbv zeta. split.
  - exact (proj1 (drive_files_query_keys
                    (JObj ClsObject
                       [("driveId", JStr "d1"); ("parentId", JStr EmptyString);
                        ("page", JNum 0)]))).
  - exact (proj1
             (proj1 (proj2 (proj2 (proj2 (proj2
                (drive_files_query_keys
                   (JObj ClsObject
                      [("driveId", JStr "d1"); ("parentId", JStr EmptyString);
                       ("page", JNum 0)]))))))
                "parentId" (or_introl eq_refl))).
Defined.

(** A 2xx answer with an envelope, through each verb of the client. *)
Lemma verbs_settle (c : DoorayConfig) (path : string) (body query : JsValue)
    (hs : DoorayHeaders) (w : World) (st : State) (r : Response) (e : Envelope) :
  (forall req, net w (trace st) req = Replied r) ->
  200 <= status r < 300 ->
  response_data r = envelope_value e ->
  let outcome :=
    if isSuccessful e then Normal (result e)
    else Throw (new_DoorayAPIError (failure_message e) (JNum (status r))
                  (envelope_value e)) in
  Client.get c path query hs w st =
    (outcome, record (EvHttp (Client.instance_config c GET path JUndefined query hs)) st)
  /\ Client.post c path body hs w st =
       (outcome, record (EvHttp (Client.instance_config c POST path body JUndefined hs)) st)
  /\ Client.put c path body hs w st =
       (outcome, record (EvHttp (Client.instance_config c PUT path body JUndefined hs)) st)
  /\ Client.delete c path hs w st =
       (outcome,
        record (EvHttp (Client.instance_config c DELETE path JUndefined JUndefined hs)) st).
Proof.
  intros Hnet H2xx Hbody. cbv zeta.
  pose proof (verbs_run c path body query hs w st (Replied r) Hnet) as Hrun.
  cbv zeta in Hrun. rewrite (outcome_2xx r H2xx) in Hrun.
  destruct Hrun as (Hget & Hpost & Hput & _ & Hdelete & _).
  rewrite Hget, Hpost, Hput, Hdelete.
  assert (Hextract : Client.extractResult r =
                     if isSuccessful e then Normal (result e)
                     else Throw (new_DoorayAPIError (failure_message e) (JNum (status r))
                                   (envelope_value e))).
  { destruct r as [code rhs data]. simpl in Hbody. subst data.
    apply (extractResult_envelope e code rhs). }
  rewrite Hextract. repeat split.
Qed.

Lemma getPaginated_settles (c : DoorayConfig) (path : string) (query : JsValue)
    (w : World) (st : State) (r : Response) (e : Envelope) (total : JsValue) :
  (forall req, net w (trace st) req = Replied r) ->
  200 <= status r < 300 ->
  response_data r = paginated_value e total ->
  isSuccessful e = true ->
  Client.getPaginated c path query w st =
    (Normal (page_of total (result e)),
     record (EvHttp (Client.instance_config c GET path JUndefined query no_headers)) st).
Proof.
  intros Hnet H2xx Hbody Hok.
  pose proof (verbs_run c path JUndefined query no_headers w st (Replied r) Hnet) as Hrun.
  cbv zeta in Hrun. rewrite (outcome_2xx r H2xx) in Hrun.
  destruct Hrun as (_ & _ & _ & _ & _ & Hpaged). rewrite Hpaged.
  destruct r as [code rhs data]. simpl in Hbody. subst data.
  pose proof (extractPaginatedResult_envelope e total code rhs) as Hextract.
  unfold answer in Hextract. rewrite Hextract, Hok. reflexivity.
Qed.

Lemma get_defined (v : JsValue) (k : string) :
  v <> JUndefined -> v <> JNull -> get v k = Normal (get_opt v k).
Proof. intros Hu Hn. destruct v; try reflexivity; contradiction. Qed.

(** X24: [getProjects] on a successful page.  One GET to
    [/project/v1/projects] whose query is [member=me], [state=active], the
    page that was given, or 0 when it is missing or falsy, and the size that
    was given, or 20 when it is missing or falsy (a size of 0 is replaced
    by 20); the list of the answer comes back with its total. *)
Theorem getProjects_page (c : DoorayConfig) (filter : JsValue) (w : World) (st : State)
    (r : Response) (e : Envelope) (total : JsValue)
    (Hclient : clientInstance st = Some c)
    (Hnet : forall req, net w (trace st) req = Replied r)
    (H2xx : 200 <= status r < 300)
    (Hbody : response_data r = paginated_value e total)
    (Hok : isSuccessful e = true) :
  let page := get_opt filter "page" in
  let size := get_opt filter "size" in
  let query :=
    JObj ClsObject
      [("member", JStr "me");
       ("state", JStr "active");
       ("page", if truthy page then page else JNum 0);
       ("size", if truthy size then size else JNum 20)] in
  let request :=
    Client.instance_config c GET "/project/v1/projects" JUndefined query no_headers in
  getProjects filter w st = (Normal (page_of total (result e)), record (EvHttp request) st)
  /\ method request = GET
  /\ params request = query
  /\ (size = JUndefined \/ size = JNum 0 -> get_opt (params request) "size" = JNum 20)
  /\ (page = JUndefined -> get_opt (params request) "page" = JNum 0).
Proof.
  cbv zeta. split; [| split; [| split; [| split]]].
  - unfold getProjects.
    rewrite (bind_normal _ _ _ _ _ _ (getClient_some c w st Hclient)).
    apply (getPaginated_settles c _ _ w st r e total Hnet H2xx Hbody Hok).
  - reflexivity.
  - reflexivity.
  - intros [Hsize | Hsize];
      cbn [params Client.instance_config get_opt get assoc String.eqb Ascii.eqb Bool.eqb
             default from_option id];
      fold (get_opt filter "size"); rewrite Hsize; reflexivity.
  - intros Hpage.
    cbn [params Client.instance_config get_opt get assoc String.eqb Ascii.eqb Bool.eqb
           default from_option id].
    fold (get_opt filter "page"). rewrite Hpage. reflexivity.
Qed.

Lemma getProjects_page_witness :
  let body :=
    paginated_value
      {| isSuccessful := true; resultCode := 0; resultMessage := EmptyString;
         result := JArr [alice] |} (JNum 57) in
  let w := fixed_world (reply 200 ∅ body) EmptyString in
  getProjects JUndefined w started =
    (Normal (page_of (JNum 57) (JArr [alice])),
     record
       (EvHttp (Client.instance_config config0 GET "/project/v1/projects" JUndefined
                  (JObj ClsObject
                     [("member", JStr "me"); ("state", JStr "active");
                      ("page", JNum 0); ("size", JNum 20)])
                  no_headers))
       started).
Proof.
  cbv zeta.
  refine (proj1 (getProjects_page config0 JUndefined
                   (fixed_world
                      (reply 200 ∅
                         (paginated_value
                            {| isSuccessful := true; resultCode := 0;
                               resultMessage := EmptyString; result := JArr [alice] |}
                            (JNum 57)))
                      EmptyString)
                   started
                   (answer 200 ∅
                      (paginated_value
                         {| isSuccessful := true; resultCode := 0;
                            resultMessage := EmptyString; result := JArr [alice] |}
                         (JNum 57)))
                   {| isSuccessful := true; resultCode := 0; resultMessage := EmptyString;
                      result := JArr [alice] |}
                   (JNum 57) eq_refl (fun _ => eq_refl) _ eq_refl eq_refl)).
  simpl. lia.
Defined.

(** X25: [getProjectMemberGroups] on a successful page.  When the first
    element of the list in the answer is itself a list, that inner list is
    returned as the data and whatever followed it is dropped; otherwise the
    data is returned as it came.  The total is unchanged in both cases. *)
Theorem member_groups_flattened (c : DoorayConfig) (filter : JsValue) (w : World)
    (st : State) (r : Response) (e : Envelope) (total : JsValue)
    (Hclient : clientInstance st = Some c)
    (Hdefined : filter <> JUndefined)
    (Hnonnull : filter <> JNull)
    (Hnet : forall req, net w (trace st) req = Replied r)
    (H2xx : 200 <= status r < 300)
    (Hbody : response_data r = paginated_value e total)
    (Hok : isSuccessful e = true) :
  let request :=
    Client.instance_config c GET
      ("/project/v1/projects/" ++ to_string (get_opt filter "projectId") ++ "/member-groups")
      JUndefined (member_groups_query filter) no_headers in
  (forall groups rest,
     result e = JArr (JArr groups :: rest) ->
     getProjectMemberGroups filter w st =
       (Normal (page_of total (JArr groups)), record (EvHttp request) st))
  /\ ((forall groups rest, result e <> JArr (JArr groups :: rest)) ->
      getProjectMemberGroups filter w st =
        (Normal (page_of total (result e)), record (EvHttp request) st)).
Proof.
  cbv zeta.
  assert (Hrun : getProjectMemberGroups filter w st =
                 (Normal (flatten_groups (page_of total (result e))),
                  record
                    (EvHttp
                       (Client.instance_config c GET
                          ("/project/v1/projects/" ++ to_string (get_opt filter "projectId")
                           ++ "/member-groups")
                          JUndefined (member_groups_query filter) no_headers)) st)).
  { unfold getProjectMemberGroups.
    rewrite (bind_normal _ _ _ _ _ _ (getClient_some c w st Hclient)).
    unfold lift at 1. unfold bind at 1. rewrite (get_defined _ _ Hdefined Hnonnull).
    unfold bind.
    rewrite (getPaginated_settles c _ _ w st r e total Hnet H2xx Hbody Hok).
    reflexivity. }
  rewrite Hrun. split.
  - intros groups rest ->. reflexivity.
  - intros Hflat. f_equal. f_equal.
    destruct (result e) as [| | | | | | | [| [] items] |] eqn:Hresult;
      try reflexivity.
    exfalso. exact (Hflat _ _ eq_refl).
Qed.

Lemma member_groups_flattened_witness :
  let body :=
    paginated_value
      {| isSuccessful := true; resultCode := 0; resultMessage := EmptyString;
         result := JArr [JArr [alice]; JNull] |} (JNum 1) in
  let w := fixed_world (reply 200 ∅ body) EmptyString in
  fst (getProjectMemberGroups (JObj ClsObject [("projectId", JStr "7")]) w started) =
    Normal (page_of (JNum 1) (JArr [alice])).
Proof.
  cbv zeta.
  refine (f_equal fst
            (proj1 (member_groups_flattened config0 (JObj ClsObject [("projectId", JStr "7")])
                      (fixed_world
                         (reply 200 ∅
                            (paginated_value
                               {| isSuccessful := true; resultCode := 0;
                                  resultMessage := EmptyString;
                                  result := JArr [JArr [alice]; JNull] |}
                               (JNum 1)))
                         EmptyString)
                      started
                      (answer 200 ∅
                         (paginated_value
                            {| isSuccessful := true; resultCode := 0;
                               resultMessage := EmptyString;
                               result := JArr [JArr [alice]; JNull] |}
                            (JNum 1)))
                      {| isSuccessful := true; resultCode := 0; resultMessage := EmptyString;
                         result := JArr [JArr [alice]; JNull] |}
                      (JNum 1) eq_refl _ _ (fun _ => eq_refl) _ eq_refl eq_refl)
               [alice] [JNull] eq_refl)).
  - discriminate.
  - discriminate.
  - simpl. lia.
Defined.

Lemma renameDriveFile_settles (c : DoorayConfig) (args : JsValue) (w : World)
    (st : State) (r : Response) (e : Envelope) :
  clientInstance st = Some c ->
  args <> JUndefined ->
  args <> JNull ->
  (forall req, net w (trace st) req = Replied r) ->
  200 <= status r < 300 ->
  response_data r = envelope_value e ->
  renameDriveFile args w st =
    (if isSuccessful e then Normal JUndefined
     else Throw (new_DoorayAPIError (failure_message e) (JNum (status r))
                   (envelope_value e)),
     record (EvHttp (rename_request c args)) st).
Proof.
  intros Hclient Hdefined Hnonnull Hnet H2xx Hbody.
  unfold renameDriveFile.
  rewrite (bind_normal _ _ _ _ _ _ (getClient_some c w st Hclient)).
  unfold lift at 1. unfold bind at 1. rewrite (get_defined _ _ Hdefined Hnonnull).
  unfold bind.
  destruct (verbs_settle c
              (DRIVE_BASE ++ "/drives/" ++ to_string (get_opt args "driveId") ++ "/files/"
               ++ to_string (get_opt args "fileId") ++ "?media=meta")
              (JObj ClsObject [("name", get_opt args "name")]) JUndefined no_headers w st r
              e Hnet H2xx Hbody) as (_ & _ & -> & _).
  destruct (isSuccessful e); reflexivity.
Qed.



Lemma formatError_api (message : string) (code : Z) (data : JsValue) :
  code <> 0 ->
  formatError (new_DoorayAPIError message (JNum code) data) =
    "Dooray API Error: " ++ message ++ " (Status: " ++ pretty code ++ ")".
Proof.
  intros Hcode. unfold formatError.
  cbn [instanceof_DoorayAPIError new_DoorayAPIError get_opt get assoc String.eqb Ascii.eqb
         Bool.eqb default from_option id to_string prim_to_string truthy].
  replace (code =? 0) with false by (symmetry; apply Z.eqb_neq; exact Hcode).
  reflexivity.
Qed.

(** X27: the handler of [rename-drive-file], for arguments that are an
    object.  On a 2xx answer with a successful envelope it returns, whatever
    the result of the envelope, the object with [success: true] and the
    message "File/folder renamed to ", the new name between double quotes,
    " successfully.", as [JSON.stringify] prints it with an indentation of
    two, and no [isError]; with an unsuccessful envelope it returns "Error: Dooray API
    Error: ", the message of the envelope and the status, with
    [isError: true].  Either way it has sent one PUT to the file's path with
    [?media=meta] and the body [{ name }], and what it returns is a
    well-formed result. *)
Theorem rename_handler_outcome (c : DoorayConfig) (args : JsValue) (w : World)
    (st : State) (r : Response) (e : Envelope)
    (Hclient : clientInstance st = Some c)
    (Hdefined : args <> JUndefined)
    (Hnonnull : args <> JNull)
    (Hnet : forall req, net w (trace st) req = Replied r)
    (H2xx : 200 <= status r < 300)
    (Hbody : response_data r = envelope_value e) :
  let name := to_string (get_opt args "name") in
  let renamed :=
    "{" ++ newline
    ++ "  " ++ dquote ++ "success" ++ dquote ++ ": true," ++ newline
    ++ "  " ++ dquote ++ "message" ++ dquote ++ ": "
    ++ Json.quote ("File/folder renamed to " ++ dquote ++ name ++ dquote ++ " successfully.")
    ++ newline ++ "}" in
  let failed :=
    "Error: Dooray API Error: " ++ failure_message e
    ++ " (Status: " ++ pretty (status r) ++ ")" in
  let request :=
    Client.instance_config c PUT
      ("/drive/v1/drives/" ++ to_string (get_opt args "driveId") ++ "/files/"
       ++ to_string (get_opt args "fileId") ++ "?media=meta")
      (JObj ClsObject [("name", get_opt args "name")]) JUndefined no_headers in
  exists v,
    renameDriveFileHandler args w st = (Normal v, record (EvHttp request) st)
    /\ well_formed v = true
    /\ (isSuccessful e = true ->
        text_of v = JStr renamed /\ has_property "isError" v = false)
    /\ (isSuccessful e = false ->
        text_of v = JStr failed /\ isError_of v = JBool true).
Proof.
  cbv zeta.
  unfold renameDriveFileHandler, try_catch. unfold bind at 1.
  rewrite (renameDriveFile_settles c args w st r e Hclient Hdefined Hnonnull Hnet H2xx
             Hbody).
  destruct (isSuccessful e).
  - eexists. split; [reflexivity |]. split; [reflexivity |].
    split; [| discriminate]. intros _. split; reflexivity.
  - unfold ret. rewrite formatError_api by lia.
    eexists. split; [reflexivity |]. split; [reflexivity |].
    split; [discriminate |]. intros _. split; reflexivity.
Qed.

Lemma rename_handler_outcome_witness :
  let w := fixed_world (Replied alice_answer) EmptyString in
  let args :=
    JObj ClsObject [("driveId", JStr "d1"); ("fileId", JStr "f1"); ("name", JStr "b.txt")] in
  let renamed :=
    "{" ++ newline
    ++ "  " ++ dquote ++ "success" ++ dquote ++ ": true," ++ newline
    ++ "  " ++ dquote ++ "message" ++ dquote ++ ": " ++ dquote
    ++ "File/folder renamed to " ++ backslash ++ dquote ++ "b.txt" ++ backslash ++ dquote
    ++ " successfully." ++ dquote ++ newline ++ "}" in
  exists v,
    renameDriveFileHandler args w started =
      (Normal v,
       record
         (EvHttp (Client.instance_config config0 PUT
                    "/drive/v1/drives/d1/files/f1?media=meta"
                    (JObj ClsObject [("name", JStr "b.txt")]) JUndefined no_headers))
         started)
    /\ text_of v = JStr renamed
    /\ has_property "isError" v = false.
Proof.
  cbv zeta.
  destruct (rename_handler_outcome config0
              (JObj ClsObject
                 [("driveId", JStr "d1"); ("fileId", JStr "f1"); ("name", JStr "b.txt")])
              (fixed_world (Replied alice_answer) EmptyString) started alice_answer
              alice_envelope eq_refl ltac:(discriminate) ltac:(discriminate)
              (fun _ => eq_refl) ltac:(simpl; lia) eq_refl)
    as (v & Hrun & _ & Hsuccess & _).
  exists v. split; [exact Hrun |]. exact (Hsuccess eq_refl).
Defined.

End ApiExtras.

(** * Properties of the member transform and the logger *)

Module UtilExtras.
Import Js Errors Members Logger.

Lemma transformMember_known (id kind : string) :
  known_kind kind = true ->
  exists t,
    transformMember (member_input id kind) = Normal t
    /\ get_opt t "type" = JStr kind
    /\ (kind = "member" ->
        get_opt (get_opt t "member") "organizationMemberId" = JStr id)
    /\ (kind = "email" -> get_opt (get_opt t "member") "emailAddress" = JStr id)
    /\ (kind = "group" ->
        get_opt (get_opt t "group") "projectMemberGroupId" = JStr id).
Proof.
  unfold known_kind. intros H.
  destruct (String.eqb_spec kind "member") as [Hm | Hm].
  { subst kind. eexists. split; [reflexivity |]. repeat split; discriminate. }
  destruct (String.eqb_spec kind "email") as [He | He].
  { subst kind. eexists. split; [reflexivity |]. repeat split; discriminate. }
  destruct (String.eqb_spec kind "group") as [Hg | Hg].
  { subst kind. eexists. split; [reflexivity |]. repeat split; discriminate. }
  discriminate.
Qed.

Lemma transformEach_known (inputs : list (string * string)) :
  Forall (fun m => known_kind (snd m) = true) inputs ->
  exists ts,
    transformEach ((fun m => member_input (fst m) (snd m)) <$> inputs) = Normal ts
    /\ (fun t => get_opt t "type") <$> ts = (fun m => JStr (snd m)) <$> inputs.
Proof.
  induction 1 as [| [id kind] inputs Hkind _ (ts & Hts & Htypes)].
  - exists []. split; reflexivity.
  - destruct (transformMember_known id kind Hkind) as (t & Ht & Htype & _).
    exists (t :: ts). split.
    + cbn [fmap list_fmap transformEach fst snd]. rewrite Ht.
      change (list_fmap _ _ ?f inputs) with (f <$> inputs). rewrite Hts. reflexivity.
    + cbn [fmap list_fmap snd]. rewrite Htype. f_equal. exact Htypes.
Qed.

Lemma nonempty_length_not_zero (items : list JsValue) :
  items <> [] -> is_zero (get_opt (JArr items) "length") = false.
Proof. destruct items; [contradiction | reflexivity]. Qed.

(** X28: [transformMembers] on members of the three known kinds.  A list
    that is not empty gives a list of the same length, in the same order,
    each element carrying the kind of its member; no element is lost or
    added. *)
Theorem transformMembers_known (inputs : list (string * string))
    (Hnonempty : inputs <> [])
    (Hkinds : Forall (fun m => known_kind (snd m) = true) inputs) :
  exists ts,
    transformMembers (JArr ((fun m => member_input (fst m) (snd m)) <$> inputs)) =
      Normal (JArr ts)
    /\ List.length ts = List.length inputs
    /\ (fun t => get_opt t "type") <$> ts = (fun m => JStr (snd m)) <$> inputs.
Proof.
  destruct (transformEach_known inputs Hkinds) as (ts & Hts & Htypes).
  exists ts. split; [| split].
  - unfold transformMembers.
    rewrite nonempty_length_not_zero by (destruct inputs; [contradiction | discriminate]).
    cbn [truthy negb orb]. rewrite Hts. reflexivity.
  - apply (f_equal (@List.length _)) in Htypes.
    rewrite !length_fmap in Htypes. exact Htypes.
  - exact Htypes.
Qed.

Lemma transformMembers_known_witness :
  exists ts,
    transformMembers (JArr [member_input "1" "member"; member_input "a@b.c" "email"]) =
      Normal (JArr ts)
    /\ List.length ts = 2%nat
    /\ (fun t => get_opt t "type") <$> ts = [JStr "member"; JStr "email"].
Proof.
  apply (transformMembers_known [("1", "member"); ("a@b.c", "email")]).
  - discriminate.
  - repeat constructor.
Defined.

Lemma transformMember_unknown (ident kind : string) :
  known_kind kind = false ->
  transformMember (member_input ident kind) =
    Throw (new_Error ("Unknown member type: " ++ kind)).
Proof.
  intros Hkind. unfold transformMember, member_input.
  cbn [get get_opt assoc String.eqb Ascii.eqb Bool.eqb default from_option id to_string
         prim_to_string].
  repeat match goal with
         | |- context [match ?x with _ => _ end] =>
             is_var x; destruct x; cbv beta iota;
             try reflexivity; try (vm_compute in Hkind; discriminate Hkind)
         end.
Qed.

Lemma transformEach_stops (good : list (string * string)) (id kind : string)
    (rest : list JsValue) :
  Forall (fun m => known_kind (snd m) = true) good ->
  known_kind kind = false ->
  transformEach
    (((fun m => member_input (fst m) (snd m)) <$> good) ++ member_input id kind :: rest)%list
  = Throw (new_Error ("Unknown member type: " ++ kind)).
Proof.
  intros Hgood Hkind. induction Hgood as [| [id0 kind0] good Hkind0 _ IH].
  - cbn [fmap list_fmap app transformEach].
    rewrite (transformMember_unknown id kind Hkind). reflexivity.
  - destruct (transformMember_known id0 kind0 Hkind0) as (t & Ht & _).
    cbn [fmap list_fmap app transformEach fst snd]. rewrite Ht.
    change (list_fmap _ _ ?f good) with (f <$> good). rewrite IH. reflexivity.
Qed.

(** X29: [transformMembers] stops at the first member whose type is not one
    of the three kinds: it throws an [Error] that names that type, whatever
    follows in the list, and returns no partial list. *)
Theorem transformMembers_unknown (good : list (string * string)) (id kind : string)
    (rest : list JsValue)
    (Hgood : Forall (fun m => known_kind (snd m) = true) good)
    (Hkind : known_kind kind = false) :
  transformMembers
    (JArr (((fun m => member_input (fst m) (snd m)) <$> good)
           ++ member_input id kind :: rest)%list)
  = Throw (new_Error ("Unknown member type: " ++ kind))
  /\ instanceof_Error (new_Error ("Unknown member type: " ++ kind)) = true
  /\ formatError (new_Error ("Unknown member type: " ++ kind)) =
       "Unknown member type: " ++ kind.
Proof.
  split; [| split; reflexivity].
  unfold transformMembers.
  rewrite nonempty_length_not_zero by (destruct (_ <$> good); discriminate).
  cbn [truthy negb orb].
  rewrite (transformEach_stops good id kind rest Hgood Hkind). reflexivity.
Qed.

Lemma transformMembers_unknown_witness :
  transformMembers (JArr [member_input "1" "member"; member_input "2" "team"; JNull]) =
    Throw (new_Error "Unknown member type: team").
Proof.
  refine (proj1 (transformMembers_unknown [("1", "member")] "2" "team" [JNull] _ _)).
  - repeat constructor.
  - reflexivity.
Defined.

(** X30: the levels of the logger are ordered from [ERROR] to [DEBUG].  An
    error is logged at every level and a debug message only at [DEBUG]; a
    level logs its own messages; what a level logs every more verbose level
    logs too; of two levels one logs the messages of the other; and a fresh
    logger, set to [INFO], drops debug messages only. *)
Theorem shouldLog_order (current level other : LogLevel) :
  shouldLog current ERROR = true
  /\ (shouldLog current DEBUG = true <-> current = DEBUG)
  /\ shouldLog level level = true
  /\ (shouldLog current level = true -> shouldLog other current = true ->
      shouldLog other level = true)
  /\ (shouldLog current level = true \/ shouldLog level current = true)
  /\ (shouldLog initial_level level = false <-> level = DEBUG).
Proof.
  destruct current, level, other; vm_compute;
    repeat split; intros; try reflexivity; try discriminate; try assumption;
    try (left; reflexivity); try (right; reflexivity).
Qed.

End UtilExtras.

(** * The handler of [get-task-comment-list] *)

Module CommentExtras.
Import Js Fx Errors Tool Dispatcher Wire Comments ClientProofs DispatcherProofs.





End CommentExtras.
